(** * Trajectory distance and speed (cuspatial)

    A shallow embedding of [cpp/src/trajectory/trajectory_distance_speed.cu]:
    the per-trajectory CUDA kernel, its launch wrapper, the two-level type
    dispatch and the validating entry point, followed by the properties the
    specification states about them.

    Integers are [Z] with the wrap-around of their C++ width written out,
    IEEE-754 values are [spec_float] at the precision of their C++ type,
    device buffers are byte lists read the way [element<T>(i)] reads them,
    and C++ exceptions, kernel launches and undefined behaviour are explicit
    outcomes of a small state-and-error monad. *)

From Stdlib Require Import ZArith List Lia Bool String Permutation.
From Stdlib Require Import Strings.Byte.
From Stdlib Require Import SpecFloat.
Import ListNotations.

Local Open Scope Z_scope.

(* ===================================================================== *)
(** * Machine integers *)
(* ===================================================================== *)

Module Int.

(** Two's-complement reading of the low [w] bits of [z]. *)
Definition wrap (w : Z) (z : Z) : Z :=
  (z + 2 ^ (w - 1)) mod 2 ^ w - 2 ^ (w - 1).

Definition wrap32 : Z -> Z := wrap 32.
Definition wrap64 : Z -> Z := wrap 64.

Definition in_range (w : Z) (z : Z) : Prop :=
  - 2 ^ (w - 1) <= z < 2 ^ (w - 1).

Definition INT32_MAX : Z := 2147483647.

End Int.

(* ===================================================================== *)
(** * IEEE-754 binary32 and binary64 *)
(* ===================================================================== *)

Module Float.

(** A binary interchange format: [mbits] stored mantissa bits and
    [ebits] exponent bits. *)
Record format := { mbits : Z; ebits : Z }.

Definition binary32 : format := {| mbits := 23; ebits := 8 |}.
Definition binary64 : format := {| mbits := 52; ebits := 11 |}.

Definition prec (f : format) : Z := mbits f + 1.
Definition emax (f : format) : Z := 2 ^ (ebits f - 1).
Definition bias (f : format) : Z := 2 ^ (ebits f - 1) - 1.
Definition bytes (f : format) : Z := (1 + ebits f + mbits f) / 8.

Definition add (f : format) := SFadd (prec f) (emax f).
Definition sub (f : format) := SFsub (prec f) (emax f).
Definition mul (f : format) := SFmul (prec f) (emax f).
Definition div (f : format) := SFdiv (prec f) (emax f).
Definition sqrt (f : format) := SFsqrt (prec f) (emax f).

(** Conversion of an integer, rounding to nearest even. *)
Definition of_Z (f : format) (z : Z) : spec_float :=
  binary_normalize (prec f) (emax f) z 0 false.

(** Conversion between formats (exact when widening). *)
Definition convert (f : format) (x : spec_float) : spec_float :=
  match x with
  | S754_finite s m e =>
      binary_normalize (prec f) (emax f) (cond_Zopp s (Zpos m)) e s
  | _ => x
  end.

(** The value stored in a bit pattern of the format. *)
Definition of_bits (f : format) (b : Z) : spec_float :=
  let m := Z.land b (Z.ones (mbits f)) in
  let e := Z.land (Z.shiftr b (mbits f)) (Z.ones (ebits f)) in
  let s := Z.testbit b (mbits f + ebits f) in
  if e =? 0 then
    match m with
    | Zpos p => S754_finite s p (1 - bias f - mbits f)
    | _ => S754_zero s
    end
  else if e =? Z.ones (ebits f) then
    if m =? 0 then S754_infinity s else S754_nan
  else
    match Z.lor m (Z.shiftl 1 (mbits f)) with
    | Zpos p => S754_finite s p (e - bias f - mbits f)
    | _ => S754_nan
    end.

(** The bit pattern of a value of the format (used to lay out inputs). *)
Definition to_bits (f : format) (x : spec_float) : Z :=
  let sign (s : bool) := if s then Z.shiftl 1 (mbits f + ebits f) else 0 in
  match x with
  | S754_zero s => sign s
  | S754_infinity s => sign s + Z.shiftl (Z.ones (ebits f)) (mbits f)
  | S754_nan =>
      Z.shiftl (Z.ones (ebits f)) (mbits f) + Z.shiftl 1 (mbits f - 1)
  | S754_finite s m e =>
      if Zpos m <? Z.shiftl 1 (mbits f) then sign s + Zpos m
      else sign s + Z.shiftl (e + bias f + mbits f) (mbits f)
           + (Zpos m - Z.shiftl 1 (mbits f))
  end.

End Float.

(** Values of the C++ type [double]. *)
Definition float64 : Type := spec_float.

(** Double-precision literals and conversions used by the kernel. *)
Definition d_zero : float64 := S754_zero false.
Definition d_of_int (z : Z) : float64 := Float.of_Z Float.binary64 z.
Definition d_neg2 : float64 := d_of_int (-2).
Definition d_neg3 : float64 := d_of_int (-3).

Definition d_add := Float.add Float.binary64.
Definition d_mul := Float.mul Float.binary64.
Definition d_div := Float.div Float.binary64.

(* ===================================================================== *)
(** * Device buffers *)
(* ===================================================================== *)

Module Buffer.

Definition t := list byte.

Definition byte_val (b : byte) : Z := Z.of_N (Byte.to_N b).

Definition byte_of_Z (z : Z) : byte :=
  match Byte.of_N (Z.to_N (z mod 256)) with
  | Some b => b
  | None => x00
  end.

(** Little-endian value of a run of bytes. *)
Fixpoint le_combine (l : list byte) : Z :=
  match l with
  | [] => 0
  | b :: t => byte_val b + 256 * le_combine t
  end.

Fixpoint le_split (n : nat) (z : Z) : list byte :=
  match n with
  | O => []
  | S n' => byte_of_Z z :: le_split n' (z / 256)
  end.

(** [load buf sz i] is the raw value of the [i]-th object of [sz] bytes,
    [data<T>()[i]]; reading outside the buffer is undefined ([None]). *)
Definition load (buf : t) (sz : Z) (i : Z) : option Z :=
  if (0 <=? i) && ((i + 1) * sz <=? Z.of_nat (List.length buf)) then
    Some (le_combine (firstn (Z.to_nat sz) (skipn (Z.to_nat (i * sz)) buf)))
  else None.

(** Layout of a list of raw values of [sz] bytes each. *)
Definition store_all (sz : Z) (l : list Z) : t :=
  flat_map (le_split (Z.to_nat sz)) l.

End Buffer.

(* ===================================================================== *)
(** * The cudf column interface used by the code *)
(* ===================================================================== *)

Module cudf.

(** Run-time type tags of columns ([cudf::type_id]). *)
Inductive type_id :=
| EMPTY | INT8 | INT16 | INT32 | INT64 | FLOAT32 | FLOAT64 | BOOL8
| TIMESTAMP_DAYS | TIMESTAMP_SECONDS | TIMESTAMP_MILLISECONDS
| TIMESTAMP_MICROSECONDS | TIMESTAMP_NANOSECONDS
| CATEGORY | STRING.

Definition type_id_eqb (a b : type_id) : bool :=
  match a, b with
  | EMPTY, EMPTY | INT8, INT8 | INT16, INT16 | INT32, INT32
  | INT64, INT64 | FLOAT32, FLOAT32 | FLOAT64, FLOAT64 | BOOL8, BOOL8
  | TIMESTAMP_DAYS, TIMESTAMP_DAYS | TIMESTAMP_SECONDS, TIMESTAMP_SECONDS
  | TIMESTAMP_MILLISECONDS, TIMESTAMP_MILLISECONDS
  | TIMESTAMP_MICROSECONDS, TIMESTAMP_MICROSECONDS
  | TIMESTAMP_NANOSECONDS, TIMESTAMP_NANOSECONDS
  | CATEGORY, CATEGORY | STRING, STRING => true
  | _, _ => false
  end.

(** The floating-point C++ types. *)
Inductive Element := float | double.

(** The [cudf::timestamp_*] types: a time point counted in ticks of the
    named period since the epoch. *)
Inductive Timestamp :=
| timestamp_D | timestamp_s | timestamp_ms | timestamp_us | timestamp_ns.

(** The C++ types the type dispatcher instantiates its functor with. *)
Inductive cpp_type :=
| t_bool8 | t_int8 | t_int16 | t_int32 | t_int64
| t_floating (E : Element)
| t_timestamp (T : Timestamp)
| t_string_view.

(** [id_to_type]: the C++ type of a tag; [EMPTY] and [CATEGORY] have no
    dispatchable type. *)
Definition id_to_type (id : type_id) : option cpp_type :=
  match id with
  | BOOL8 => Some t_bool8
  | INT8 => Some t_int8
  | INT16 => Some t_int16
  | INT32 => Some t_int32
  | INT64 => Some t_int64
  | FLOAT32 => Some (t_floating float)
  | FLOAT64 => Some (t_floating double)
  | TIMESTAMP_DAYS => Some (t_timestamp timestamp_D)
  | TIMESTAMP_SECONDS => Some (t_timestamp timestamp_s)
  | TIMESTAMP_MILLISECONDS => Some (t_timestamp timestamp_ms)
  | TIMESTAMP_MICROSECONDS => Some (t_timestamp timestamp_us)
  | TIMESTAMP_NANOSECONDS => Some (t_timestamp timestamp_ns)
  | STRING => Some t_string_view
  | EMPTY | CATEGORY => None
  end.

(** [std::is_floating_point<T>::value] and [cudf::is_timestamp<T>()]. *)
Definition is_floating_point (T : cpp_type) : bool :=
  match T with t_floating _ => true | _ => false end.

Definition is_timestamp_t (T : cpp_type) : bool :=
  match T with t_timestamp _ => true | _ => false end.

(** A column view: type tag, element count, null count and the device
    buffer holding the elements. *)
Record column_view := {
  type : type_id;
  size : Z;
  null_count : Z;
  data : Buffer.t
}.

Definition is_empty (c : column_view) : bool := size c =? 0.

(** ** Typed element access, [c.element<T>(i)] *)

Definition format_of (E : Element) : Float.format :=
  match E with float => Float.binary32 | double => Float.binary64 end.

Definition sizeof_Element (E : Element) : Z := Float.bytes (format_of E).

(** Width in bits of the tick counter of a timestamp type. *)
Definition rep_bits (T : Timestamp) : Z :=
  match T with timestamp_D => 32 | _ => 64 end.

Definition sizeof_Timestamp (T : Timestamp) : Z := rep_bits T / 8.

Definition element_int32 (c : column_view) (i : Z) : option Z :=
  option_map Int.wrap32 (Buffer.load (data c) 4 i).

Definition element (E : Element) (c : column_view) (i : Z)
  : option spec_float :=
  option_map (Float.of_bits (format_of E))
             (Buffer.load (data c) (sizeof_Element E) i).

Definition element_timestamp (T : Timestamp) (c : column_view) (i : Z)
  : option Z :=
  option_map (Int.wrap (rep_bits T))
             (Buffer.load (data c) (sizeof_Timestamp T) i).

(** ** Output columns

    A freshly allocated numeric column has no defined contents: a slot is
    [None] until a thread stores into it. *)
Definition mutable_column := list (option float64).

Definition make_numeric_column (n : Z) : mutable_column :=
  repeat None (Z.to_nat n).

Fixpoint update (c : mutable_column) (i : nat) (v : float64)
  : mutable_column :=
  match c, i with
  | [], _ => []
  | _ :: t, O => Some v :: t
  | h :: t, S i' => h :: update t i' v
  end.

(** [c.element<double>(i) = v]; storing outside the column is undefined. *)
Definition store (c : mutable_column) (i : Z) (v : float64)
  : option mutable_column :=
  if (0 <=? i) && (i <? Z.of_nat (List.length c))
  then Some (update c (Z.to_nat i) v) else None.

(** The result table: the distance column and the speed column. *)
Definition table : Type := mutable_column * mutable_column.

End cudf.

(* ===================================================================== *)
(** * Durations ([simt::std::chrono]) *)
(* ===================================================================== *)

Module chrono.

Import cudf.

(** Ratio [num / den] of the tick period of [T] to one millisecond. *)
Definition num (T : Timestamp) : Z :=
  match T with timestamp_D => 86400000 | timestamp_s => 1000 | _ => 1 end.

Definition den (T : Timestamp) : Z :=
  match T with timestamp_us => 1000 | timestamp_ns => 1000000 | _ => 1 end.

(** [a - b] on time points of type [T]: the tick counters are subtracted
    in the counter type. *)
Definition time_point_sub (T : Timestamp) (a b : Z) : Z :=
  Int.wrap (rep_bits T) (a - b).

(** [duration_cast<timestamp_ms::duration>]: multiply by [num], then
    divide by [den] with C++ integer division (truncation), in 64 bits. *)
Definition duration_cast_ms (T : Timestamp) (d : Z) : Z :=
  Int.wrap64 (Z.quot (Int.wrap64 (d * num T)) (den T)).

(** [floor<timestamp_ms::duration>(d)]: the cast value, lowered by one
    when the cast rounded up.  The comparison [t > d] is made in the
    finer of the two periods. *)
Definition floor_ms (T : Timestamp) (d : Z) : Z :=
  let t := duration_cast_ms T d in
  if Int.wrap64 (t * den T) >? Int.wrap64 (d * num T)
  then Int.wrap64 (t - 1) else t.

End chrono.

(* ===================================================================== *)
(** * Outcomes of host code *)
(* ===================================================================== *)

(** What the host observably does to the device. *)
Inductive event :=
| ev_alloc (n : Z)                        (* an output column of n rows *)
| ev_launch (num_blocks block_size : Z)   (* the kernel is launched *)
| ev_sync.                                (* the stream is synchronised *)

(** Status codes of the CUDA runtime. *)
Definition cudaError_t : Type := Z.
Definition cudaSuccess : cudaError_t := 0.

(** A call returns a value, throws [cudf::logic_error] with a message,
    throws the memory resource's [bad_alloc], throws [cudf::cuda_error] for
    a CUDA status, or has undefined behaviour (a device access outside a
    buffer). *)
Inductive outcome (A : Type) :=
| Return (a : A)
| Throw (msg : string)
| Throw_bad_alloc
| Throw_cuda_error (status : cudaError_t)
| Undefined.

Arguments Return {A} a.
Arguments Throw {A} msg.
Arguments Throw_bad_alloc {A}.
Arguments Throw_cuda_error {A} status.
Arguments Undefined {A}.

(** What the memory resource and the CUDA runtime answer during one call:
    whether the [k]-th column allocation succeeds, and the statuses of
    [cudaOccupancyMaxPotentialBlockSize], of [cudaStreamSynchronize] and
    of the error check of [CHECK_CUDA]. *)
Record cuda_runtime := {
  allocation_succeeds : nat -> bool;
  occupancy_status : cudaError_t;
  synchronize_status : cudaError_t;
  check_status : cudaError_t
}.

(** A runtime on which every call succeeds. *)
Definition healthy : cuda_runtime :=
  {| allocation_succeeds := fun _ => true;
     occupancy_status := cudaSuccess;
     synchronize_status := cudaSuccess;
     check_status := cudaSuccess |}.

(** Every call of the launch wrapper succeeds on this runtime. *)
Definition runtime_ok (rt : cuda_runtime) : bool :=
  allocation_succeeds rt 0 && allocation_succeeds rt 1
  && (occupancy_status rt =? cudaSuccess)
  && (synchronize_status rt =? cudaSuccess)
  && (check_status rt =? cudaSuccess).

(** Host computations: the events so far are threaded through. *)
Definition M (A : Type) : Type := list event -> outcome A * list event.

Definition ret {A} (a : A) : M A := fun log => (Return a, log).

Definition bind {A B} (c : M A) (k : A -> M B) : M B :=
  fun log =>
    match c log with
    | (Return a, log') => k a log'
    | (Throw msg, log') => (Throw msg, log')
    | (Throw_bad_alloc, log') => (Throw_bad_alloc, log')
    | (Throw_cuda_error status, log') => (Throw_cuda_error status, log')
    | (Undefined, log') => (Undefined, log')
    end.

Definition emit (e : event) : M unit := fun log => (Return tt, log ++ [e]).

Definition undefined {A} : M A := fun log => (Undefined, log).

Declare Scope host_scope.
Delimit Scope host_scope with host.
Notation "x <- c ;; k" := (bind c (fun x => k))
  (at level 61, c at next level, right associativity) : host_scope.
Notation "c ;; k" := (bind c (fun _ => k))
  (at level 61, right associativity) : host_scope.

(** [CUDF_FAIL(msg)] and [CUDF_EXPECTS(cond, msg)]. *)
Definition CUDF_FAIL {A} (msg : string) : M A := fun log => (Throw msg, log).

Definition CUDF_EXPECTS (cond : bool) (msg : string) : M unit :=
  if cond then ret tt else CUDF_FAIL msg.

(** [CUDA_TRY(call)], for the status the call returned: anything but
    [cudaSuccess] is thrown as [cudf::cuda_error]. *)
Definition CUDA_TRY (status : cudaError_t) : M unit :=
  if status =? cudaSuccess then ret tt
  else fun log => (Throw_cuda_error status, log).

(** Device code: [None] is undefined behaviour. *)
Declare Scope device_scope.
Delimit Scope device_scope with device.
Notation "x <- c ; k" :=
  (match c with Some x => k | None => None end)
  (at level 61, c at next level, right associativity) : device_scope.

(* ===================================================================== *)
(** * The kernel *)
(* ===================================================================== *)

Import cudf.

(** Implicit conversions between an [Element] value and [double]. *)
Definition to_double (E : Element) (v : spec_float) : float64 :=
  match E with
  | float => Float.convert Float.binary64 v
  | double => v
  end.

Definition of_double (E : Element) (v : float64) : spec_float :=
  match E with
  | float => Float.convert Float.binary32 v
  | double => v
  end.

(** Modelled from the spec: [pow] and [sqrt] are math-library functions
    outside the repository.  Called with an [int] exponent, [pow] takes its
    first argument as [double] (the promotion rule of C++11 <cmath>) and
    returns [double]; both functions are taken correctly rounded, so that
    [pow(d, 2)] is the rounded square of [d], the [^2] of the
    specification. *)
Definition pow_2 (d : float64) : float64 := d_mul d d.

Definition sqrt (v : float64) : float64 := Float.sqrt Float.binary64 v.

(** [sqrt(pow(x1 - x0, 2) + pow(y1 - y0, 2))]: the differences are taken
    in the element type, the rest in [double]. *)
Definition segment (E : Element) (x0 x1 y0 y1 : spec_float) : float64 :=
  sqrt (d_add (pow_2 (to_double E (Float.sub (format_of E) x1 x0)))
              (pow_2 (to_double E (Float.sub (format_of E) y1 y0)))).

Section Kernel.

Variables (E : Element) (T : Timestamp).
Variables (x y timestamp length offset : column_view).

Local Open Scope device_scope.

(** The loop [for (int32_t i = idx; i < end; ++i)], entered with [n]
    iterations left ([end - i] of them); [i + 1 <= end] does not wrap. *)
Fixpoint reduce (n : nat) (i : Z) (dist_km : float64) : option float64 :=
  match n with
  | O => Some dist_km
  | S n' =>
      x0 <- element E x (i + 0) ;
      x1 <- element E x (i + 1) ;
      y0 <- element E y (i + 0) ;
      y1 <- element E y (i + 1) ;
      reduce n' (i + 1) (d_add dist_km (segment E x0 x1 y0 y1))
  end.

(** [floor<timestamp_ms::duration>(timestamp.element<Timestamp>(end) -
    timestamp.element<Timestamp>(idx)).count()]. *)
Definition elapsed_ms (idx end_ : Z) : option Z :=
  t_end <- element_timestamp T timestamp end_ ;
  t_idx <- element_timestamp T timestamp idx ;
  Some (chrono.floor_ms T (chrono.time_point_sub T t_end t_idx)).

(** One thread of [compute_distance_and_speed_kernel], for the global
    thread index [tid], on the current contents of the output columns. *)
Definition compute_distance_and_speed_kernel
    (out : table) (tid : Z) : option table :=
  let '(distance, speed) := out in
  if tid <? size length then
    len <- element_int32 length tid ;
    idx <- element_int32 offset tid ;
    let end_ := Int.wrap32 (Int.wrap32 (idx + len) - 1) in
    time_ms <- elapsed_ms idx end_ ;
    if len <? 2 then
      speed <- store speed tid d_neg2 ;
      distance <- store distance tid d_neg2 ;
      Some (distance, speed)
    else if time_ms =? 0 then
      speed <- store speed tid d_neg3 ;
      distance <- store distance tid d_neg3 ;
      Some (distance, speed)
    else
      dist_km <- reduce (Z.to_nat (end_ - idx)) idx d_zero ;
      distance <- store distance tid (d_mul dist_km (d_of_int 1000)) ;
      speed <- store speed tid
                (d_div (d_mul dist_km (d_of_int 1000000))
                       (d_of_int time_ms)) ;
      Some (distance, speed)
  else Some out.

(** The threads of a launch, run one after the other. *)
Fixpoint run_threads (tids : list Z) (out : table) : option table :=
  match tids with
  | [] => Some out
  | tid :: rest =>
      out' <- compute_distance_and_speed_kernel out tid ;
      run_threads rest out'
  end.

(** [kernel<<<num_blocks, block_size>>>]: thread indices
    [0 .. num_blocks * block_size - 1]. *)
Definition launch (num_blocks block_size : Z) (out : table)
  : option table :=
  run_threads (map Z.of_nat (seq 0 (Z.to_nat (num_blocks * block_size))))
              out.

End Kernel.

(* ===================================================================== *)
(** * Host side: launch wrapper, dispatch and entry point *)
(* ===================================================================== *)

Section Host.

(** The block size chosen by [cudaOccupancyMaxPotentialBlockSize]. *)
Variable max_potential_block_size : Z.

(** The answers of the memory resource and of the CUDA runtime. *)
Variable cuda : cuda_runtime.

Local Open Scope host_scope.

(** [grid_1d{size, block_size}.num_blocks]: the quotient rounded up. *)
Definition grid_1d_num_blocks (n block_size : Z) : Z :=
  Z.quot n block_size + (if Z.rem n block_size =? 0 then 0 else 1).

(** [cudf::make_numeric_column], the [k]-th allocation of the call: the
    memory resource throws when it cannot serve it. *)
Definition allocate_column (k : nat) (n : Z) : M mutable_column :=
  if allocation_succeeds cuda k
  then emit (ev_alloc n) ;; ret (make_numeric_column n)
  else fun log => (Throw_bad_alloc, log).

Definition compute_distance_and_speed (E : Element) (T : Timestamp)
    (x y timestamp length offset : column_view) : M table :=
  let size := size offset in
  distance <- allocate_column 0 size ;;
  speed <- allocate_column 1 size ;;
  let cols := (distance, speed) in
  CUDA_TRY (occupancy_status cuda) ;;
  let block_size := max_potential_block_size in
  let num_blocks := grid_1d_num_blocks size block_size in
  emit (ev_launch num_blocks block_size) ;;
  match launch E T x y timestamp length offset num_blocks block_size cols
  with
  | Some cols' =>
      emit ev_sync ;;
      CUDA_TRY (synchronize_status cuda) ;;
      CUDA_TRY (check_status cuda) ;;
      ret cols'
  | None => undefined
  end.

(** [cudf::experimental::type_dispatcher]: the functor instantiated at
    the C++ type of the tag. *)
Definition type_dispatcher {A} (dtype : type_id) (f : cpp_type -> M A)
  : M A :=
  match id_to_type dtype with
  | Some t => f t
  | None => CUDF_FAIL "Unsupported type_id."
  end.

(** [cudf::is_timestamp(data_type)]. *)
Definition is_timestamp (dtype : type_id) : M bool :=
  type_dispatcher dtype (fun t => ret (is_timestamp_t t)).

Definition dispatch_timestamp (E : Element)
    (x y timestamp length offset : column_view) (t : cpp_type) : M table :=
  match t with
  | t_timestamp T =>
      compute_distance_and_speed E T x y timestamp length offset
  | _ => CUDF_FAIL "Timestamp must be a timestamp type"
  end.

Definition dispatch_element
    (x y timestamp length offset : column_view) (t : cpp_type) : M table :=
  match t with
  | t_floating E =>
      type_dispatcher (type timestamp)
        (dispatch_timestamp E x y timestamp length offset)
  | _ => CUDF_FAIL "X and Y must be floating point types"
  end.

Definition trajectory_distance_and_speed
    (x y timestamp length offset : column_view) : M table :=
  CUDF_EXPECTS (negb (is_empty x) && negb (is_empty length))
               "Insufficient trajectory data" ;;
  CUDF_EXPECTS ((size x =? size y) && (size x =? size timestamp)
                && (size length =? size offset))
               "Data size mismatch" ;;
  ts_ok <- is_timestamp (type timestamp) ;;
  CUDF_EXPECTS ts_ok "Invalid timestamp datatype" ;;
  CUDF_EXPECTS (type_id_eqb (type length) INT32)
               "Invalid trajectory length type" ;;
  CUDF_EXPECTS (type_id_eqb (type offset) INT32)
               "Invalid trajectory offset type" ;;
  CUDF_EXPECTS ((null_count x =? 0) && (null_count y =? 0)
                && (null_count timestamp =? 0) && (null_count offset =? 0))
               "NULL support unimplemented" ;;
  CUDF_EXPECTS ((0 <? size offset) && (size offset <=? size x))
               "Insufficient trajectory data" ;;
  type_dispatcher (type x) (dispatch_element x y timestamp length offset).

End Host.

(* ===================================================================== *)
(** * Building columns from values (for concrete inputs) *)
(* ===================================================================== *)

Module Build.

Definition raw (tid : type_id) (sz : Z) (l : list Z) : column_view :=
  {| type := tid; size := Z.of_nat (List.length l); null_count := 0;
     data := Buffer.store_all sz l |}.

Definition tag_of_Element (E : Element) : type_id :=
  match E with float => FLOAT32 | double => FLOAT64 end.

Definition tag_of_Timestamp (T : Timestamp) : type_id :=
  match T with
  | timestamp_D => TIMESTAMP_DAYS
  | timestamp_s => TIMESTAMP_SECONDS
  | timestamp_ms => TIMESTAMP_MILLISECONDS
  | timestamp_us => TIMESTAMP_MICROSECONDS
  | timestamp_ns => TIMESTAMP_NANOSECONDS
  end.

(** A floating-point column holding the given integers. *)
Definition floats (E : Element) (l : list Z) : column_view :=
  raw (tag_of_Element E) (sizeof_Element E)
      (map (fun z => Float.to_bits (format_of E)
                       (Float.of_Z (format_of E) z)) l).

(** A timestamp column holding the given tick counts. *)
Definition timestamps (T : Timestamp) (l : list Z) : column_view :=
  raw (tag_of_Timestamp T) (sizeof_Timestamp T) l.

Definition int32s (l : list Z) : column_view := raw INT32 4 l.
Definition int64s (l : list Z) : column_view := raw INT64 8 l.

End Build.

(* ===================================================================== *)
(** * Vocabulary for the properties *)
(* ===================================================================== *)

Section Reducer.

Variables (E : Element) (T : Timestamp).
Variables (x y timestamp length offset : column_view).

Local Open Scope device_scope.

(** Index of the last point of a trajectory, [idx + len - 1] in [int32_t]. *)
Definition end_index (len idx : Z) : Z :=
  Int.wrap32 (Int.wrap32 (idx + len) - 1).

(** The pair (distance, speed) a thread stores for a trajectory of [len]
    points that starts at point [idx]: the kernel body without its
    stores.  It mentions the point and timestamp columns only. *)
Definition trajectory_value (len idx : Z) : option (float64 * float64) :=
  let end_ := end_index len idx in
  time_ms <- elapsed_ms T timestamp idx end_ ;
  if len <? 2 then Some (d_neg2, d_neg2)
  else if time_ms =? 0 then Some (d_neg3, d_neg3)
  else
    dist_km <- reduce E x y (Z.to_nat (end_ - idx)) idx d_zero ;
    Some (d_mul dist_km (d_of_int 1000),
          d_div (d_mul dist_km (d_of_int 1000000)) (d_of_int time_ms)).

(** Row [g] of the Group Descriptor. *)
Definition descriptor_row (g : Z) : option (Z * Z) :=
  len <- element_int32 length g ;
  idx <- element_int32 offset g ;
  Some (len, idx).

(** What thread [g] stores. *)
Definition thread_value (g : Z) : option (float64 * float64) :=
  row <- descriptor_row g ;
  trajectory_value (fst row) (snd row).

(** Total reads, for stating sums over points known to be in bounds. *)
Definition point (c : column_view) (i : Z) : spec_float :=
  match element E c i with Some v => v | None => S754_nan end.

(** The point indices [idx, idx + 1, ..., idx + k - 1]. *)
Definition indices (idx : Z) (k : nat) : list Z :=
  map (fun j => idx + Z.of_nat j) (seq 0 k).

(** Left-to-right sum in [double] of the segment lengths of the [k]
    consecutive point pairs from [idx] on. *)
Definition path_length (idx : Z) (k : nat) : float64 :=
  fold_left
    (fun acc i =>
       d_add acc (segment E (point x i) (point x (i + 1))
                            (point y i) (point y (i + 1))))
    (indices idx k) d_zero.

(** ** Memory safety of a launch *)

(** The buffer of [c] holds [n] objects of [sz] bytes. *)
Definition holds (c : column_view) (sz n : Z) : bool :=
  n * sz <=? Z.of_nat (List.length (data c)).

(** First and last point index of a trajectory lie in [0, npoints). *)
Definition trajectory_in_bounds (npoints len idx : Z) : bool :=
  (0 <=? idx) && (idx <? npoints)
  && (0 <=? idx + len - 1) && (idx + len - 1 <? npoints).

(** Every buffer holds as many objects of the instantiated types as its
    column has rows, and every trajectory starts and ends inside the
    point arrays. *)
Definition launch_in_bounds : bool :=
  let n := size length in
  let npoints := size x in
  (0 <=? n) && (npoints <=? Int.INT32_MAX)
  && holds length 4 n && holds offset 4 n
  && holds x (sizeof_Element E) npoints
  && holds y (sizeof_Element E) npoints
  && holds timestamp (sizeof_Timestamp T) npoints
  && forallb
       (fun g =>
          match descriptor_row g with
          | Some (len, idx) => trajectory_in_bounds npoints len idx
          | None => false
          end)
       (map Z.of_nat (seq 0 (Z.to_nat n))).

(** The kernel launched as [compute_distance_and_speed] launches it, on
    freshly allocated output columns. *)
Definition reducer (block_size : Z) : option table :=
  let n := size offset in
  launch E T x y timestamp length offset
         (grid_1d_num_blocks n block_size) block_size
         (make_numeric_column n, make_numeric_column n).

End Reducer.

(** ** The specification's wording, for comparison *)

Section AsSpecified.

Variables (E : Element) (x y : column_view).

(** The sum "accumulated in the floating-point element type": the
    accumulator has type [Element], so every partial sum is rounded to
    it. *)
Definition path_length_in_element_type (idx : Z) (k : nat) : spec_float :=
  fold_left
    (fun acc i =>
       of_double E
         (d_add (to_double E acc)
                (segment E (point E x i) (point E x (i + 1))
                           (point E y i) (point E y (i + 1)))))
    (indices idx k) (S754_zero false).

(** [sum * 1000] for that sum. *)
Definition distance_as_specified (idx : Z) (k : nat) : float64 :=
  d_mul (to_double E (path_length_in_element_type idx k)) (d_of_int 1000).

End AsSpecified.

(** ** The entry point's stated preconditions *)

Section Preconditions.

Variables (x y timestamp length offset : column_view).

(** The tag names a floating-point type, a genuine temporal type. *)
Definition floating (id : type_id) : bool :=
  match id_to_type id with Some (t_floating _) => true | _ => false end.

Definition temporal (id : type_id) : bool :=
  match id_to_type id with Some (t_timestamp _) => true | _ => false end.

(** The preconditions on shapes and nulls. *)
Definition shape_preconditions : bool :=
  negb (is_empty x) && negb (is_empty length)
  && (size x =? size y) && (size x =? size timestamp)
  && (size length =? size offset)
  && (null_count x =? 0) && (null_count y =? 0)
  && (null_count timestamp =? 0) && (null_count offset =? 0)
  && (0 <? size offset) && (size offset <=? size x).

(** All stated preconditions. *)
Definition preconditions : bool :=
  shape_preconditions
  && temporal (type timestamp)
  && type_id_eqb (type length) INT32
  && type_id_eqb (type offset) INT32.

End Preconditions.

(** The error messages that name a type, and the messages of the
    validation errors. *)
Definition type_errors : list string :=
  [ "Invalid timestamp datatype"; "Unsupported type_id.";
    "Invalid trajectory length type"; "Invalid trajectory offset type";
    "X and Y must be floating point types";
    "Timestamp must be a timestamp type" ]%string.

Definition validation_errors : list string :=
  [ "Insufficient trajectory data"; "Data size mismatch";
    "Invalid timestamp datatype"; "Unsupported type_id.";
    "Invalid trajectory length type"; "Invalid trajectory offset type";
    "NULL support unimplemented" ]%string.

(** The column [c] under another type tag. *)
Definition with_type (c : column_view) (tag : type_id) : column_view :=
  {| type := tag; size := size c; null_count := null_count c;
     data := data c |}.

(** The Group Descriptor invariant as the specification states it: counts
    are not negative and every trajectory ends inside the point arrays. *)
Definition stated_invariant (x length offset : column_view) : bool :=
  forallb
    (fun g =>
       match descriptor_row length offset g with
       | Some (len, idx) => (0 <=? len) && (idx + len - 1 <? size x)
       | None => false
       end)
    (map Z.of_nat (seq 0 (Z.to_nat (size length)))).

(** Elapsed ticks converted to milliseconds by truncation toward zero. *)
Definition truncated_ms (T : Timestamp) (t_end t_idx : Z) : Z :=
  Z.quot ((t_end - t_idx) * chrono.num T) (chrono.den T).

(** Elapsed ticks converted to milliseconds by rounding down. *)
Definition floored_ms (T : Timestamp) (t_end t_idx : Z) : Z :=
  ((t_end - t_idx) * chrono.num T) / chrono.den T.

(* ===================================================================== *)
(** * Concrete inputs *)
(* ===================================================================== *)

Module Examples.

Import Build.

(** A batch of three trajectories over six points: one point only; two
    points with identical timestamps; three points two seconds apart. *)
Definition batch_x : column_view := floats double [0; 1; 1; 0; 3; 3].
Definition batch_y : column_view := floats double [0; 2; 2; 0; 4; 8].
Definition batch_timestamp : column_view :=
  timestamps timestamp_ms [0; 5; 5; 0; 1000; 2000].
Definition batch_length : column_view := int32s [1; 2; 3].
Definition batch_offset : column_view := int32s [0; 1; 3].

(** The same batch with its descriptor rows in the order 2, 0, 1. *)
Definition rotated_length : column_view := int32s [3; 1; 2].
Definition rotated_offset : column_view := int32s [3; 0; 1].

(** Two points, (0,0) and (3,4), with timestamps [t0] and [t1]. *)
Definition two_x (E : Element) : column_view := floats E [0; 3].
Definition two_y (E : Element) : column_view := floats E [0; 4].
Definition two_timestamp (T : Timestamp) (t0 t1 : Z) : column_view :=
  timestamps T [t0; t1].
Definition two_length : column_view := int32s [2].
Definition two_offset : column_view := int32s [0].

(** Single-precision points whose two segment lengths are 2^24 and 1. *)
Definition wide_x : column_view := floats float [0; 16777216; 16777216].
Definition wide_y : column_view := floats float [0; 0; 1].
Definition wide_timestamp : column_view :=
  timestamps timestamp_ms [0; 1000; 2000].
Definition wide_length : column_view := int32s [3].
Definition wide_offset : column_view := int32s [0].

(** One point and one trajectory of no points, starting at point 0. *)
Definition empty_x : column_view := floats double [0].
Definition empty_y : column_view := floats double [0].
Definition empty_timestamp : column_view := timestamps timestamp_ms [0].
Definition empty_length : column_view := int32s [0].
Definition empty_offset : column_view := int32s [0].

(** Microsecond timestamps running backwards by half a millisecond, and
    by two and a half milliseconds. *)
Definition backward_timestamp : column_view :=
  timestamps timestamp_us [500; 0].
Definition backward_timestamp_long : column_view :=
  timestamps timestamp_us [2500; 0].

(** Integer coordinates under the tag [INT32]. *)
Definition int_x : column_view := int32s [0; 3].

(** A 64-bit integer column whose second value has the bit pattern of the
    double 4.0. *)
Definition int_y : column_view := int64s [0; 4616189618054758400].

End Examples.

(* ===================================================================== *)
(** * Further vocabulary *)
(* ===================================================================== *)

(** The value is NaN or has its sign bit clear. *)
Definition not_negative (v : spec_float) : bool :=
  match v with
  | S754_nan | S754_zero false | S754_infinity false
  | S754_finite false _ _ => true
  | _ => false
  end.

(** The value is a zero or a finite number (neither infinite nor NaN). *)
Definition is_finite (v : spec_float) : bool :=
  match v with
  | S754_zero _ | S754_finite _ _ _ => true
  | _ => false
  end.

(** The column [c] with another null count. *)
Definition with_null_count (c : column_view) (n : Z) : column_view :=
  {| type := type c; size := size c; null_count := n; data := data c |}.

(** Every message the entry point can throw. *)
Definition thrown_messages : list string :=
  [ "Insufficient trajectory data"; "Data size mismatch";
    "Invalid timestamp datatype"; "Unsupported type_id.";
    "Invalid trajectory length type"; "Invalid trajectory offset type";
    "NULL support unimplemented";
    "X and Y must be floating point types" ]%string.

(** The events of a completed call for [n] trajectories. *)
Definition completed_call (n block_size : Z) : list event :=
  [ ev_alloc n; ev_alloc n;
    ev_launch (grid_1d_num_blocks n block_size) block_size; ev_sync ].

(* ===================================================================== *)
(** * The patch to thrust's [CUDA_CUB_RET_IF_FAIL] *)
(* ===================================================================== *)

Module thrust.

Section RetIfFail.

(** The state of the CUDA runtime the macro's argument acts on. *)
Variable State : Type.

Definition cudaError_t : Type := Z.
Definition cudaSuccess : cudaError_t := 0.

(** The macro's argument [e]: an expression of type [cudaError_t], run
    each time the expansion mentions it. *)
Definition expression : Type := State -> cudaError_t * State.

(** [cub::Debug(error, file, line)] hands [error] back (after reporting
    it); as a condition it holds when the error is not [cudaSuccess]. *)
Definition Debug (error : cudaError_t) : bool := negb (error =? cudaSuccess).

(** The macro before the patch:
    [if (cub::Debug((e), __FILE__, __LINE__)) return e;].
    The result is [Some r] when the enclosing function returns [r], and
    [None] when control continues after the macro. *)
Definition CUDA_CUB_RET_IF_FAIL_original (e : expression) (s : State)
  : option cudaError_t * State :=
  let '(err, s1) := e s in
  if Debug err then
    let '(r, s2) := e s1 in (Some r, s2)
  else (None, s1).

(** The macro after the patch:
    [{ auto const error = (e);
       if (cub::Debug(error, __FILE__, __LINE__)) return error; }]. *)
Definition CUDA_CUB_RET_IF_FAIL (e : expression) (s : State)
  : option cudaError_t * State :=
  let '(error, s1) := e s in
  if Debug error then (Some error, s1) else (None, s1).

End RetIfFail.

(** An expression in the manner of [cudaGetLastError()]: it yields the
    pending error and resets it to [cudaSuccess]. *)
Definition get_last_error : expression Z := fun pending => (pending, 0).

End thrust.

(* ===================================================================== *)
(** * More concrete inputs *)
(* ===================================================================== *)

Module MoreExamples.

Import Build.

(** The example batch with the points of the first two trajectories
    moved, and with the timestamp of its fifth point changed. *)
Definition moved_x : column_view := floats double [7; 9; 9; 0; 3; 3].
Definition moved_y : column_view := floats double [7; 5; 5; 0; 4; 8].
Definition moved_timestamp : column_view :=
  timestamps timestamp_ms [0; 5; 5; 0; 1234; 2000].

(** Coordinate columns with no data at all. *)
Definition no_points : column_view := floats double [].

(** Three samples of a vehicle standing at (3, 4), one second apart. *)
Definition parked_x : column_view := floats float [3; 3; 3].
Definition parked_y : column_view := floats float [4; 4; 4].
Definition parked_timestamp : column_view :=
  timestamps timestamp_s [10; 11; 12].
Definition parked_length : column_view := int32s [3].
Definition parked_offset : column_view := int32s [0].

End MoreExamples.

(* ===================================================================== *)
(** * Basic facts: integers, buffers, output columns *)
(* ===================================================================== *)

Lemma wrap_small (w z : Z) :
  0 < w -> Int.in_range w z -> Int.wrap w z = z.
Proof.
  unfold Int.in_range, Int.wrap. intros Hw Hz.
  assert (Hp : 2 ^ w = 2 * 2 ^ (w - 1)).
  { rewrite <- Z.pow_succ_r by lia. f_equal. lia. }
  rewrite Z.mod_small; lia.
Qed.

Lemma wrap32_small (z : Z) :
  - 2147483648 <= z <= 2147483647 -> Int.wrap32 z = z.
Proof.
  intros Hz. apply wrap_small; [lia|].
  unfold Int.in_range. change (2 ^ (32 - 1)) with 2147483648. lia.
Qed.

Lemma wrap64_small (z : Z) :
  - 9223372036854775808 <= z <= 9223372036854775807 -> Int.wrap64 z = z.
Proof.
  intros Hz. apply wrap_small; [lia|].
  unfold Int.in_range. change (2 ^ (64 - 1)) with 9223372036854775808. lia.
Qed.

Lemma load_in_bounds (buf : Buffer.t) (sz i : Z) :
  0 <= i -> (i + 1) * sz <= Z.of_nat (List.length buf) ->
  exists v, Buffer.load buf sz i = Some v.
Proof.
  intros H0 H1. unfold Buffer.load.
  replace (0 <=? i) with true by (symmetry; apply Z.leb_le; lia).
  replace ((i + 1) * sz <=? Z.of_nat (List.length buf)) with true
    by (symmetry; apply Z.leb_le; lia).
  simpl. eauto.
Qed.

Lemma holds_in_bounds (c : column_view) (sz n i : Z) :
  holds c sz n = true -> 0 <= sz -> 0 <= i < n ->
  exists v, Buffer.load (data c) sz i = Some v.
Proof.
  unfold holds. intros H Hsz Hi. apply Z.leb_le in H.
  apply load_in_bounds; nia.
Qed.

Lemma update_length (c : mutable_column) (i : nat) (v : float64) :
  List.length (update c i v) = List.length c.
Proof.
  revert i. induction c as [|h t IH]; intros [|i]; simpl; auto.
Qed.

Lemma nth_error_update_eq (c : mutable_column) (i : nat) (v : float64) :
  (i < List.length c)%nat -> nth_error (update c i v) i = Some (Some v).
Proof.
  revert i. induction c as [|h t IH]; intros [|i] Hi; simpl in *;
    try lia; auto.
  apply IH. lia.
Qed.

Lemma nth_error_update_neq (c : mutable_column) (i j : nat) (v : float64) :
  i <> j -> nth_error (update c i v) j = nth_error c j.
Proof.
  revert i j. induction c as [|h t IH]; intros [|i] [|j] Hij; simpl;
    try congruence; auto.
Qed.

Lemma store_in_bounds (c : mutable_column) (i : Z) (v : float64) :
  0 <= i < Z.of_nat (List.length c) ->
  store c i v = Some (update c (Z.to_nat i) v).
Proof.
  intros Hi. unfold store.
  replace (0 <=? i) with true by (symmetry; apply Z.leb_le; lia).
  replace (i <? Z.of_nat (List.length c)) with true
    by (symmetry; apply Z.ltb_lt; lia).
  reflexivity.
Qed.

Lemma make_numeric_column_length (n : Z) :
  List.length (make_numeric_column n) = Z.to_nat n.
Proof. unfold make_numeric_column. apply repeat_length. Qed.

(* ===================================================================== *)
(** * One thread, then all threads *)
(* ===================================================================== *)

Section KernelFacts.

Variables (E : Element) (T : Timestamp).
Variables (x y timestamp length offset : column_view).

Local Abbreviation kernel :=
  (compute_distance_and_speed_kernel E T x y timestamp length offset).
Local Abbreviation value :=
  (thread_value E T x y timestamp length offset).
Local Abbreviation run :=
  (run_threads E T x y timestamp length offset).

(** An active thread stores its trajectory's value into its own slot of
    each output column, and nothing else. *)
Lemma kernel_thread (d s : mutable_column) (tid : Z) :
  0 <= tid < size length ->
  tid < Z.of_nat (List.length d) -> tid < Z.of_nat (List.length s) ->
  kernel (d, s) tid =
  match value tid with
  | Some (dv, sv) =>
      Some (update d (Z.to_nat tid) dv, update s (Z.to_nat tid) sv)
  | None => None
  end.
Proof.
  intros Ht Hd Hs.
  unfold compute_distance_and_speed_kernel, thread_value, descriptor_row,
    trajectory_value, end_index.
  replace (tid <? size length) with true
    by (symmetry; apply Z.ltb_lt; lia).
  destruct (element_int32 length tid) as [len|]; [|reflexivity].
  destruct (element_int32 offset tid) as [idx|]; [|reflexivity].
  cbn [fst snd].
  destruct (elapsed_ms T timestamp idx _) as [time_ms|]; [|reflexivity].
  destruct (len <? 2).
  { rewrite !store_in_bounds by lia. reflexivity. }
  destruct (time_ms =? 0).
  { rewrite !store_in_bounds by lia. reflexivity. }
  destruct (reduce E x y _ idx d_zero) as [dist_km|]; [|reflexivity].
  rewrite !store_in_bounds by lia. reflexivity.
Qed.

(** A thread beyond the last trajectory does nothing. *)
Lemma kernel_idle (out : table) (tid : Z) :
  size length <= tid -> kernel out tid = Some out.
Proof.
  intros Ht. unfold compute_distance_and_speed_kernel.
  destruct out as [d s].
  replace (tid <? size length) with false
    by (symmetry; apply Z.ltb_ge; lia).
  reflexivity.
Qed.

Lemma run_threads_app (l1 l2 : list Z) (out : table) :
  run (l1 ++ l2) out =
  match run l1 out with
  | Some out' => run l2 out'
  | None => None
  end.
Proof.
  revert out.
  induction l1 as [|t l1 IH]; intros out; cbn [run_threads app];
    [reflexivity|].
  destruct (kernel out t); [apply IH | reflexivity].
Qed.

Lemma run_threads_idle (k a : nat) (out : table) :
  size length <= Z.of_nat a ->
  run (map Z.of_nat (seq a k)) out = Some out.
Proof.
  revert a.
  induction k as [|k IH]; intros a Ha; cbn [run_threads map seq];
    [reflexivity|].
  rewrite kernel_idle by lia. apply IH. lia.
Qed.

(** Running the threads [a .. a + k - 1]: each stores its own value, and
    the slots of the other threads are left as they were. *)
Lemma run_threads_active (k a : nat) (d s : mutable_column) :
  Z.of_nat (a + k) <= size length ->
  (a + k <= List.length d)%nat -> (a + k <= List.length s)%nat ->
  (forall g, (a <= g < a + k)%nat -> value (Z.of_nat g) <> None) ->
  exists d' s',
    run (map Z.of_nat (seq a k)) (d, s) = Some (d', s')
    /\ List.length d' = List.length d /\ List.length s' = List.length s
    /\ (forall g, (a <= g < a + k)%nat ->
          exists dv sv,
            value (Z.of_nat g) = Some (dv, sv)
            /\ nth_error d' g = Some (Some dv)
            /\ nth_error s' g = Some (Some sv))
    /\ (forall g, ~ (a <= g < a + k)%nat ->
          nth_error d' g = nth_error d g
          /\ nth_error s' g = nth_error s g).
Proof.
  revert a d s.
  induction k as [|k IH]; intros a d s Hn Hd Hs Hdef.
  { exists d, s. simpl. repeat split; auto. intros g Hg. lia. }
  cbn [run_threads map seq]. rewrite kernel_thread by lia.
  destruct (value (Z.of_nat a)) as [[dv sv]|] eqn:Hv.
  2:{ exfalso. apply (Hdef a); [lia | exact Hv]. }
  rewrite Nat2Z.id.
  destruct (IH (S a) (update d a dv) (update s a sv))
    as (d' & s' & Hrun & Hld & Hls & Hin & Hout).
  { lia. }
  { rewrite update_length. lia. }
  { rewrite update_length. lia. }
  { intros g Hg. apply Hdef. lia. }
  exists d', s'. rewrite Hrun. rewrite update_length in Hld, Hls.
  repeat split; auto.
  - intros g Hg. destruct (Nat.eq_dec g a) as [->|Hne].
    + exists dv, sv. destruct (Hout a) as [Hda Hsa]; [lia|].
      rewrite Hda, Hsa, !nth_error_update_eq by lia. auto.
    + apply Hin. lia.
  - destruct (Hout g) as [Hdg _]; [lia|].
    rewrite Hdg. apply nth_error_update_neq. lia.
  - destruct (Hout g) as [_ Hsg]; [lia|].
    rewrite Hsg. apply nth_error_update_neq. lia.
Qed.

End KernelFacts.


(* ===================================================================== *)
(** * The launch as a whole *)
(* ===================================================================== *)

Lemma grid_covers (n block_size : Z) :
  0 < block_size -> 0 <= n ->
  n <= grid_1d_num_blocks n block_size * block_size.
Proof.
  intros Hb Hn. unfold grid_1d_num_blocks.
  pose proof (Z.quot_rem' n block_size) as Hqr.
  pose proof (Z.rem_bound_pos n block_size Hn Hb) as Hr.
  destruct (Z.rem n block_size =? 0) eqn:Hz.
  - apply Z.eqb_eq in Hz. nia.
  - nia.
Qed.

Lemma sizeof_Element_pos (E : Element) : 0 < sizeof_Element E.
Proof. destruct E; reflexivity. Qed.

Lemma sizeof_Timestamp_pos (T : Timestamp) : 0 < sizeof_Timestamp T.
Proof. destruct T; reflexivity. Qed.

Lemma indices_S (i : Z) (k : nat) :
  indices i (S k) = i :: indices (i + 1) k.
Proof.
  unfold indices. cbn [seq map]. rewrite <- seq_shift, map_map.
  f_equal; [apply Z.add_0_r|].
  apply map_ext. intros j. lia.
Qed.

Section LaunchFacts.

Variables (E : Element) (T : Timestamp).
Variables (x y timestamp length offset : column_view).

Local Abbreviation value :=
  (thread_value E T x y timestamp length offset).

(** A launch in which no thread has undefined behaviour fills every slot
    of both output columns with the value of that slot's thread. *)
Lemma reducer_runs (block_size : Z) :
  0 < block_size ->
  size length = size offset ->
  (forall g, 0 <= g < size length -> value g <> None) ->
  exists distance speed,
    reducer E T x y timestamp length offset block_size
    = Some (distance, speed)
    /\ List.length distance = Z.to_nat (size length)
    /\ List.length speed = Z.to_nat (size length)
    /\ forall g, 0 <= g < size length ->
         exists dv sv,
           value g = Some (dv, sv)
           /\ nth_error distance (Z.to_nat g) = Some (Some dv)
           /\ nth_error speed (Z.to_nat g) = Some (Some sv).
Proof.
  intros Hb Hsz Hdef. unfold reducer, launch. rewrite <- Hsz.
  set (n := size length) in *.
  destruct (Z.le_gt_cases 0 n) as [Hn|Hn].
  2:{ (* a negative row count: no thread is active *)
    exists (make_numeric_column n), (make_numeric_column n).
    rewrite run_threads_idle by lia.
    rewrite make_numeric_column_length.
    repeat split; auto. intros g Hg. lia. }
  pose proof (grid_covers n block_size Hb Hn) as Hcov.
  set (N := grid_1d_num_blocks n block_size * block_size) in *.
  replace (Z.to_nat N) with (Z.to_nat n + (Z.to_nat N - Z.to_nat n))%nat
    by lia.
  rewrite seq_app, map_app, run_threads_app.
  destruct (run_threads_active E T x y timestamp length offset
              (Z.to_nat n) 0 (make_numeric_column n) (make_numeric_column n))
    as (d' & s' & Hrun & Hld & Hls & Hin & _).
  { fold n. lia. }
  { rewrite make_numeric_column_length. lia. }
  { rewrite make_numeric_column_length. lia. }
  { intros g Hg. apply Hdef. fold n. lia. }
  rewrite Hrun, run_threads_idle by (fold n; lia).
  rewrite make_numeric_column_length in Hld, Hls.
  exists d', s'. repeat split; auto.
  intros g Hg. destruct (Hin (Z.to_nat g)) as (dv & sv & Hv & Hd & Hs);
    [lia|].
  rewrite Z2Nat.id in Hv by lia. eauto.
Qed.

(** A thread with undefined behaviour makes the launch undefined. *)
Lemma run_threads_undefined (tids : list Z) (out : table) (g : Z) :
  In g tids -> 0 <= g < size length ->
  (forall t, In t tids -> 0 <= t) ->
  Z.of_nat (List.length (fst out)) = size length ->
  Z.of_nat (List.length (snd out)) = size length ->
  value g = None ->
  run_threads E T x y timestamp length offset tids out = None.
Proof.
  revert out. induction tids as [|t tids IH]; intros [d s] Hin Hg Hpos Hd Hs Hv.
  { destruct Hin. }
  cbn [run_threads]. cbn [fst snd] in Hd, Hs.
  destruct (Z.lt_ge_cases t (size length)) as [Hlt|Hge].
  - rewrite kernel_thread by (try apply conj; try lia; apply Hpos; left; auto).
    destruct (value t) as [[dv sv]|] eqn:Hvt; [|reflexivity].
    destruct Hin as [->|Hin]; [congruence|].
    apply IH; auto.
    + intros t' Ht'. apply Hpos. right. exact Ht'.
    + cbn [fst]. rewrite update_length. exact Hd.
    + cbn [snd]. rewrite update_length. exact Hs.
  - rewrite kernel_idle by lia.
    destruct Hin as [->|Hin]; [lia|].
    apply IH; auto.
    intros t' Ht'. apply Hpos. right. exact Ht'.
Qed.

(** ** Reads inside the buffers succeed *)

Lemma element_point (c : column_view) (i : Z) :
  holds c (sizeof_Element E) (size x) = true -> 0 <= i < size x ->
  element E c i = Some (point E c i).
Proof.
  intros Hh Hi. unfold point, element.
  destruct (holds_in_bounds c _ _ i Hh) as [v Hv]; auto.
  { pose proof (sizeof_Element_pos E). lia. }
  rewrite Hv. reflexivity.
Qed.

Lemma element_timestamp_in_bounds (i : Z) :
  holds timestamp (sizeof_Timestamp T) (size x) = true -> 0 <= i < size x ->
  exists t, element_timestamp T timestamp i = Some t.
Proof.
  intros Hh Hi. unfold element_timestamp.
  destruct (holds_in_bounds timestamp _ _ i Hh) as [v Hv]; auto.
  { pose proof (sizeof_Timestamp_pos T). lia. }
  rewrite Hv. simpl. eauto.
Qed.

(** The loop is the left-to-right fold over the point pairs. *)
Lemma reduce_fold (k : nat) (i : Z) (acc : float64) :
  holds x (sizeof_Element E) (size x) = true ->
  holds y (sizeof_Element E) (size x) = true ->
  0 <= i -> i + Z.of_nat k < size x ->
  reduce E x y k i acc =
  Some (fold_left
          (fun acc i =>
             d_add acc (segment E (point E x i) (point E x (i + 1))
                                  (point E y i) (point E y (i + 1))))
          (indices i k) acc).
Proof.
  intros Hx Hy. revert i acc.
  induction k as [|k IH]; intros i acc Hi Hk; [reflexivity|].
  cbn [reduce]. rewrite Z.add_0_r.
  rewrite !element_point by (auto; lia).
  rewrite IH by lia. rewrite indices_S. reflexivity.
Qed.

End LaunchFacts.

Section TrajectoryFacts.

Variables (E : Element) (T : Timestamp).
Variables (x y timestamp length offset : column_view).

Lemma trajectory_in_bounds_range (len idx : Z) :
  trajectory_in_bounds (size x) len idx = true ->
  0 <= idx < size x /\ 0 <= idx + len - 1 < size x.
Proof.
  unfold trajectory_in_bounds. intros H.
  apply andb_prop in H. destruct H as [H H4].
  apply andb_prop in H. destruct H as [H H3].
  apply andb_prop in H. destruct H as [H1 H2].
  apply Z.leb_le in H1, H3. apply Z.ltb_lt in H2, H4. lia.
Qed.

Lemma end_index_in_bounds (len idx : Z) :
  size x <= Int.INT32_MAX ->
  trajectory_in_bounds (size x) len idx = true ->
  end_index len idx = idx + len - 1.
Proof.
  intros Hmax Hb. apply trajectory_in_bounds_range in Hb.
  unfold Int.INT32_MAX in Hmax. unfold end_index.
  rewrite (wrap32_small (idx + len)) by lia.
  apply wrap32_small. lia.
Qed.

(** The value of a trajectory whose first and last point are inside the
    point arrays. *)
Lemma trajectory_value_in_bounds (len idx : Z) :
  size x <= Int.INT32_MAX ->
  holds x (sizeof_Element E) (size x) = true ->
  holds y (sizeof_Element E) (size x) = true ->
  holds timestamp (sizeof_Timestamp T) (size x) = true ->
  trajectory_in_bounds (size x) len idx = true ->
  exists time_ms,
    elapsed_ms T timestamp idx (idx + len - 1) = Some time_ms
    /\ trajectory_value E T x y timestamp len idx =
       Some (if len <? 2 then (d_neg2, d_neg2)
             else if time_ms =? 0 then (d_neg3, d_neg3)
             else
               let sum := path_length E x y idx (Z.to_nat (len - 1)) in
               (d_mul sum (d_of_int 1000),
                d_div (d_mul sum (d_of_int 1000000)) (d_of_int time_ms))).
Proof.
  intros Hmax Hx Hy Ht Hb.
  unfold trajectory_value. rewrite end_index_in_bounds by assumption.
  apply trajectory_in_bounds_range in Hb. destruct Hb as [Hidx Hend].
  destruct (element_timestamp_in_bounds T x timestamp (idx + len - 1) Ht Hend)
    as [t_end Hte].
  destruct (element_timestamp_in_bounds T x timestamp idx Ht Hidx)
    as [t_idx Hti].
  unfold elapsed_ms. rewrite Hte, Hti.
  eexists. split; [reflexivity|].
  destruct (len <? 2) eqn:Hlen; [reflexivity|].
  destruct (_ =? 0); [reflexivity|].
  apply Z.ltb_ge in Hlen.
  replace (idx + len - 1 - idx) with (len - 1) by lia.
  rewrite reduce_fold by (auto; lia).
  reflexivity.
Qed.

(** Under [launch_in_bounds] every row of the descriptor can be read and
    describes a trajectory inside the point arrays. *)
Lemma launch_in_bounds_row (g : Z) :
  launch_in_bounds E T x y timestamp length offset = true ->
  0 <= g < size length ->
  exists len idx,
    descriptor_row length offset g = Some (len, idx)
    /\ trajectory_in_bounds (size x) len idx = true.
Proof.
  unfold launch_in_bounds. intros H Hg.
  apply andb_prop in H. destruct H as [_ Hall].
  rewrite forallb_forall in Hall.
  specialize (Hall g).
  destruct (descriptor_row length offset g) as [[len idx]|].
  - exists len, idx. split; [reflexivity|]. apply Hall.
    apply in_map_iff. exists (Z.to_nat g). split; [lia|].
    apply in_seq. lia.
  - assert (false = true); [|discriminate]. apply Hall.
    apply in_map_iff. exists (Z.to_nat g). split; [lia|].
    apply in_seq. lia.
Qed.

Lemma launch_in_bounds_columns :
  launch_in_bounds E T x y timestamp length offset = true ->
  size x <= Int.INT32_MAX
  /\ holds x (sizeof_Element E) (size x) = true
  /\ holds y (sizeof_Element E) (size x) = true
  /\ holds timestamp (sizeof_Timestamp T) (size x) = true.
Proof.
  unfold launch_in_bounds. intros H.
  repeat (apply andb_prop in H; destruct H as [H ?]).
  repeat split; auto. apply Z.leb_le. assumption.
Qed.

(** In-bounds launches have no undefined thread, and the value of thread
    [g] is the value of its row. *)
Lemma launch_in_bounds_value (g : Z) :
  launch_in_bounds E T x y timestamp length offset = true ->
  0 <= g < size length ->
  exists len idx time_ms,
    descriptor_row length offset g = Some (len, idx)
    /\ elapsed_ms T timestamp idx (idx + len - 1) = Some time_ms
    /\ thread_value E T x y timestamp length offset g =
       Some (if len <? 2 then (d_neg2, d_neg2)
             else if time_ms =? 0 then (d_neg3, d_neg3)
             else
               let sum := path_length E x y idx (Z.to_nat (len - 1)) in
               (d_mul sum (d_of_int 1000),
                d_div (d_mul sum (d_of_int 1000000)) (d_of_int time_ms))).
Proof.
  intros Hb Hg.
  destruct (launch_in_bounds_row g Hb Hg) as (len & idx & Hrow & Htb).
  destruct (launch_in_bounds_columns Hb) as (Hmax & Hx & Hy & Ht).
  destruct (trajectory_value_in_bounds len idx Hmax Hx Hy Ht Htb)
    as (time_ms & Hel & Hval).
  exists len, idx, time_ms. repeat split; auto.
  unfold thread_value. rewrite Hrow. exact Hval.
Qed.

End TrajectoryFacts.

(* ===================================================================== *)
(** * Elapsed time *)
(* ===================================================================== *)

(** C++ division followed by the adjustment of [floor] is division
    rounding down. *)
Lemma quot_adjust_floor (p d : Z) :
  0 < d ->
  (if (Z.quot p d) * d >? p then Z.quot p d - 1 else Z.quot p d) = p / d.
Proof.
  intros Hd.
  pose proof (Z.quot_rem' p d) as Hqr.
  destruct (Z.le_gt_cases 0 p) as [Hp|Hp].
  - pose proof (Z.rem_bound_pos p d Hp Hd) as Hr.
    replace (Z.quot p d * d >? p) with false
      by (symmetry; rewrite Z.gtb_ltb; apply Z.ltb_ge; nia).
    apply Z.div_unique with (r := Z.rem p d); lia.
  - assert (Hr' : - d < Z.rem p d <= 0)
      by (apply Z.rem_bound_pos_neg; lia).
    destruct (Z.eq_dec (Z.rem p d) 0) as [Hz|Hnz].
    + replace (Z.quot p d * d >? p) with false
        by (symmetry; rewrite Z.gtb_ltb; apply Z.ltb_ge; nia).
      apply Z.div_unique with (r := 0); lia.
    + replace (Z.quot p d * d >? p) with true
        by (symmetry; rewrite Z.gtb_ltb; apply Z.ltb_lt; nia).
      apply Z.div_unique with (r := Z.rem p d + d); lia.
Qed.

Lemma num_den_cases (T : Timestamp) :
  0 < chrono.num T /\ 0 < chrono.den T
  /\ (chrono.den T = 1 \/ (chrono.num T = 1 /\ 1000 <= chrono.den T)).
Proof. destruct T; cbn; lia. Qed.

(** Without overflow, [floor_ms] is the elapsed time in milliseconds
    rounded down. *)
Lemma floor_ms_floor (T : Timestamp) (d : Z) :
  Int.in_range 64 (d * chrono.num T) ->
  chrono.floor_ms T d = (d * chrono.num T) / chrono.den T.
Proof.
  unfold Int.in_range. change (2 ^ (64 - 1)) with 9223372036854775808.
  intros Hr.
  destruct (num_den_cases T) as (Hn & Hd & Hcase).
  unfold chrono.floor_ms, chrono.duration_cast_ms.
  set (p := d * chrono.num T) in *. set (q := chrono.den T) in *.
  rewrite (wrap64_small p) by lia.
  pose proof (Z.quot_rem' p q) as Hqr.
  assert (Hq : - 9223372036854775808 <= Z.quot p q <= 9223372036854775807
               /\ - 9223372036854775808 <= Z.quot p q * q
                  <= 9223372036854775807).
  { destruct (Z.le_gt_cases 0 p) as [Hp|Hp].
    - pose proof (Z.rem_bound_pos p q Hp Hd) as Hrem.
      pose proof (Z.quot_pos p q Hp Hd) as Hq0.
      assert (Z.quot p q <= q * Z.quot p q) by nia.
      lia.
    - assert (Hrem : - q < Z.rem p q <= 0)
        by (apply Z.rem_bound_pos_neg; lia).
      assert (Hq0 : Z.quot p q <= 0).
      { destruct (Z.le_gt_cases (Z.quot p q) 0); [assumption|]. nia. }
      assert (q * Z.quot p q <= Z.quot p q) by nia.
      lia. }
  rewrite (wrap64_small (Z.quot p q)) by lia.
  rewrite (wrap64_small (Z.quot p q * q)) by lia.
  rewrite <- (quot_adjust_floor p q Hd).
  destruct (Z.quot p q * q >? p) eqn:Hgt; [|reflexivity].
  apply wrap64_small.
  rewrite Z.gtb_ltb in Hgt. apply Z.ltb_lt in Hgt.
  destruct Hcase as [Hone|[_ Hbig]]; [nia|]. nia.
Qed.

(* ===================================================================== *)
(** * Properties of the reducer *)
(* ===================================================================== *)

Section ReducerProperties.

Variables (E : Element) (T : Timestamp).
Variables (x y timestamp length offset : column_view).
Variable block_size : Z.

Hypothesis block_size_pos : 0 < block_size.
Hypothesis descriptor_sizes : size length = size offset.
Hypothesis in_bounds :
  launch_in_bounds E T x y timestamp length offset = true.

(** The launch completes, and slot [g] of its output holds the value of
    row [g] of the descriptor. *)
Lemma reducer_row (g len idx : Z) :
  0 <= g < size length ->
  descriptor_row length offset g = Some (len, idx) ->
  exists distance speed time_ms,
    reducer E T x y timestamp length offset block_size
    = Some (distance, speed)
    /\ elapsed_ms T timestamp idx (idx + len - 1) = Some time_ms
    /\ trajectory_value E T x y timestamp len idx
       = Some (if len <? 2 then (d_neg2, d_neg2)
               else if time_ms =? 0 then (d_neg3, d_neg3)
               else
                 let sum := path_length E x y idx (Z.to_nat (len - 1)) in
                 (d_mul sum (d_of_int 1000),
                  d_div (d_mul sum (d_of_int 1000000)) (d_of_int time_ms)))
    /\ option_map (fun v => Some (fst v))
                  (trajectory_value E T x y timestamp len idx)
       = nth_error distance (Z.to_nat g)
    /\ option_map (fun v => Some (snd v))
                  (trajectory_value E T x y timestamp len idx)
       = nth_error speed (Z.to_nat g).
Proof.
  intros Hg Hrow.
  destruct (reducer_runs E T x y timestamp length offset block_size
              block_size_pos descriptor_sizes)
    as (distance & speed & Hrun & _ & _ & Hslots).
  { intros t Ht.
    destruct (launch_in_bounds_value E T x y timestamp length offset t
                in_bounds Ht) as (l & i & tm & _ & _ & Hv).
    rewrite Hv. discriminate. }
  destruct (launch_in_bounds_value E T x y timestamp length offset g
              in_bounds Hg) as (l & i & time_ms & Hrow' & Hel & Hv).
  rewrite Hrow in Hrow'. injection Hrow' as <- <-.
  destruct (Hslots g Hg) as (dv & sv & Hv' & Hd & Hs).
  exists distance, speed, time_ms.
  unfold thread_value in Hv, Hv'. rewrite Hrow in Hv, Hv'.
  cbn [fst snd] in Hv, Hv'.
  repeat split; auto.
  - rewrite Hv'. cbn. rewrite Hd. reflexivity.
  - rewrite Hv'. cbn. rewrite Hs. reflexivity.
Qed.

End ReducerProperties.

(** C1 (as amended): for a trajectory of at least two points whose floored
    elapsed time is not zero, the distance slot holds [sum * 1000] and the
    speed slot [sum * 1000000 / elapsed_ms], where [sum] is the
    left-to-right fold over the consecutive point pairs of the segment
    lengths, accumulated in [double] whatever the element type is (only
    the coordinate differences are taken in the element type). *)
Theorem distance_and_speed_of_path
    (E : Element) (T : Timestamp)
    (x y timestamp length offset : column_view)
    (block_size g len idx time_ms : Z) :
  0 < block_size ->
  size length = size offset ->
  launch_in_bounds E T x y timestamp length offset = true ->
  0 <= g < size length ->
  descriptor_row length offset g = Some (len, idx) ->
  2 <= len ->
  elapsed_ms T timestamp idx (idx + len - 1) = Some time_ms ->
  time_ms <> 0 ->
  exists distance speed,
    reducer E T x y timestamp length offset block_size
    = Some (distance, speed)
    /\ let sum := path_length E x y idx (Z.to_nat (len - 1)) in
       nth_error distance (Z.to_nat g)
       = Some (Some (d_mul sum (d_of_int 1000)))
       /\ nth_error speed (Z.to_nat g)
          = Some (Some (d_div (d_mul sum (d_of_int 1000000))
                              (d_of_int time_ms))).
Proof.
  intros Hb Hsz Hin Hg Hrow Hlen Hel Hnz.
  destruct (reducer_row E T x y timestamp length offset block_size
              Hb Hsz Hin g len idx Hg Hrow)
    as (distance & speed & tm & Hrun & Hel' & Hval & Hd & Hs).
  rewrite Hel in Hel'. injection Hel' as <-.
  exists distance, speed. split; [exact Hrun|].
  replace (len <? 2) with false in Hval by (symmetry; apply Z.ltb_ge; lia).
  replace (time_ms =? 0) with false in Hval
    by (symmetry; apply Z.eqb_neq; assumption).
  rewrite Hval in Hd, Hs. cbn in Hd, Hs. cbn zeta. auto.
Qed.

(** C2: a trajectory of fewer than two points has the sentinel [-2.0] in
    both output slots, whatever the point and timestamp columns hold. *)
Theorem too_few_points_sentinel
    (E : Element) (T : Timestamp)
    (x y timestamp length offset : column_view)
    (block_size g len idx : Z) :
  0 < block_size ->
  size length = size offset ->
  launch_in_bounds E T x y timestamp length offset = true ->
  0 <= g < size length ->
  descriptor_row length offset g = Some (len, idx) ->
  len < 2 ->
  exists distance speed,
    reducer E T x y timestamp length offset block_size
    = Some (distance, speed)
    /\ nth_error distance (Z.to_nat g) = Some (Some d_neg2)
    /\ nth_error speed (Z.to_nat g) = Some (Some d_neg2)
    /\ d_neg2 = S754_finite true 4503599627370496 (-51).
Proof.
  intros Hb Hsz Hin Hg Hrow Hlen.
  destruct (reducer_row E T x y timestamp length offset block_size
              Hb Hsz Hin g len idx Hg Hrow)
    as (distance & speed & tm & Hrun & _ & Hval & Hd & Hs).
  exists distance, speed. split; [exact Hrun|].
  replace (len <? 2) with true in Hval by (symmetry; apply Z.ltb_lt; lia).
  rewrite Hval in Hd, Hs. cbn in Hd, Hs. auto.
Qed.


(** The third trajectory of the example batch: 5 + 4 units over two
    seconds, 9000 m at 4500 m/s. *)
Lemma distance_and_speed_of_path_witness :
  exists distance speed,
    reducer double timestamp_ms Examples.batch_x Examples.batch_y
            Examples.batch_timestamp Examples.batch_length
            Examples.batch_offset 256
    = Some (distance, speed)
    /\ let sum := path_length double Examples.batch_x Examples.batch_y 3
                              (Z.to_nat (3 - 1)) in
       nth_error distance (Z.to_nat 2)
       = Some (Some (d_mul sum (d_of_int 1000)))
       /\ nth_error speed (Z.to_nat 2)
          = Some (Some (d_div (d_mul sum (d_of_int 1000000))
                              (d_of_int 2000))).
Proof.
  apply (distance_and_speed_of_path double timestamp_ms
           Examples.batch_x Examples.batch_y Examples.batch_timestamp
           Examples.batch_length Examples.batch_offset 256 2 3 3 2000).
  - lia.
  - reflexivity.
  - vm_compute. reflexivity.
  - cbn. lia.
  - vm_compute. reflexivity.
  - lia.
  - vm_compute. reflexivity.
  - lia.
Defined.

(** C1 as worded fails for single-precision points: with segment lengths
    2^24 and 1 the kernel's [double] accumulator holds 16777217, while a
    sum accumulated in [float] rounds to 16777216. *)
Lemma accumulation_in_element_type_counterexample :
  reducer float timestamp_ms Examples.wide_x Examples.wide_y
          Examples.wide_timestamp Examples.wide_length
          Examples.wide_offset 256
  = Some ([Some (d_of_int 16777217000)], [Some (d_of_int 8388608500)])
  /\ distance_as_specified float Examples.wide_x Examples.wide_y 0 2
     = d_of_int 16777216000
  /\ d_of_int 16777217000 <> d_of_int 16777216000.
Proof.
  split; [vm_compute; reflexivity|].
  split; [vm_compute; reflexivity|].
  vm_compute. discriminate.
Qed.

(** For double-precision points the two sums are the same. *)
Lemma double_accumulation_as_specified
    (x y : column_view) (idx : Z) (k : nat) :
  path_length_in_element_type double x y idx k = path_length double x y idx k.
Proof. reflexivity. Qed.

(** The first trajectory of the example batch has a single point. *)
Lemma too_few_points_sentinel_witness :
  exists distance speed,
    reducer double timestamp_ms Examples.batch_x Examples.batch_y
            Examples.batch_timestamp Examples.batch_length
            Examples.batch_offset 256
    = Some (distance, speed)
    /\ nth_error distance (Z.to_nat 0) = Some (Some d_neg2)
    /\ nth_error speed (Z.to_nat 0) = Some (Some d_neg2)
    /\ d_neg2 = S754_finite true 4503599627370496 (-51).
Proof.
  apply (too_few_points_sentinel double timestamp_ms
           Examples.batch_x Examples.batch_y Examples.batch_timestamp
           Examples.batch_length Examples.batch_offset 256 0 1 0).
  - lia.
  - reflexivity.
  - vm_compute. reflexivity.
  - cbn. lia.
  - vm_compute. reflexivity.
  - lia.
Defined.


(** C4 (as amended): when the subtraction and the conversion do not
    overflow, the elapsed time the reducer uses is the difference of the
    last and first timestamp in milliseconds rounded down (toward minus
    infinity).  It agrees with truncation for elapsed times that are not
    negative; a positive sub-millisecond elapsed time becomes 0 and a
    negative one becomes -1. *)
Theorem elapsed_ms_rounds_down
    (T : Timestamp) (timestamp : column_view) (idx end_ t_end t_idx : Z) :
  element_timestamp T timestamp end_ = Some t_end ->
  element_timestamp T timestamp idx = Some t_idx ->
  Int.in_range (rep_bits T) (t_end - t_idx) ->
  Int.in_range 64 ((t_end - t_idx) * chrono.num T) ->
  elapsed_ms T timestamp idx end_ = Some (floored_ms T t_end t_idx)
  /\ (0 <= t_end - t_idx ->
      floored_ms T t_end t_idx = truncated_ms T t_end t_idx)
  /\ (0 <= (t_end - t_idx) * chrono.num T < chrono.den T ->
      floored_ms T t_end t_idx = 0)
  /\ (- chrono.den T <= (t_end - t_idx) * chrono.num T < 0 ->
      floored_ms T t_end t_idx = -1).
Proof.
  intros Hte Hti Hsub Hconv.
  destruct (num_den_cases T) as (Hn & Hd & _).
  assert (Hbits : 0 < rep_bits T) by (destruct T; reflexivity).
  unfold floored_ms, truncated_ms.
  repeat split.
  - unfold elapsed_ms. rewrite Hte, Hti.
    unfold chrono.time_point_sub. rewrite wrap_small by assumption.
    rewrite floor_ms_floor by assumption. reflexivity.
  - intros Hpos. symmetry. apply Z.quot_div_nonneg; nia.
  - intros Hsmall. apply Z.div_small. assumption.
  - intros Hsmall. symmetry.
    apply Z.div_unique
      with (r := (t_end - t_idx) * chrono.num T + chrono.den T); lia.
Qed.

(** Two and a half milliseconds backwards are three milliseconds down. *)
Lemma elapsed_ms_rounds_down_witness :
  elapsed_ms timestamp_us Examples.backward_timestamp_long 0 1
  = Some (floored_ms timestamp_us 0 2500)
  /\ (0 <= 0 - 2500 ->
      floored_ms timestamp_us 0 2500 = truncated_ms timestamp_us 0 2500)
  /\ (0 <= (0 - 2500) * chrono.num timestamp_us < chrono.den timestamp_us ->
      floored_ms timestamp_us 0 2500 = 0)
  /\ (- chrono.den timestamp_us <= (0 - 2500) * chrono.num timestamp_us < 0 ->
      floored_ms timestamp_us 0 2500 = -1).
Proof.
  apply (elapsed_ms_rounds_down timestamp_us
           Examples.backward_timestamp_long 0 1 0 2500).
  - vm_compute. reflexivity.
  - vm_compute. reflexivity.
  - unfold Int.in_range. cbn. lia.
  - unfold Int.in_range. cbn. lia.
Defined.

(** C4 as worded fails for a negative sub-millisecond elapsed time: half a
    millisecond backwards is -1 ms for the kernel, not 0, and the
    trajectory gets a negative speed instead of the sentinel [-3.0]. *)
Lemma truncation_toward_zero_counterexample :
  elapsed_ms timestamp_us Examples.backward_timestamp 0 1 = Some (-1)
  /\ truncated_ms timestamp_us 0 500 = 0
  /\ reducer double timestamp_us
             (Examples.two_x double) (Examples.two_y double)
             Examples.backward_timestamp
             Examples.two_length Examples.two_offset 256
     = Some ([Some (d_of_int 5000)], [Some (d_of_int (-5000000))]).
Proof.
  split; [vm_compute; reflexivity|].
  split; vm_compute; reflexivity.
Qed.

(* ===================================================================== *)
(** * Validation and dispatch *)
(* ===================================================================== *)

Ltac reject msg :=
  exists msg; split; [cbn; tauto | intros log; reflexivity].

Ltac reject_typed msg :=
  exists msg; split;
  [ intros log; reflexivity
  | cbn; intros Hshape; try discriminate Hshape; tauto ].

(** X14: an [x] column whose tag is not a floating-point type, or a
    timestamp column whose tag is not a temporal type, makes the call throw
    a [cudf::logic_error]: nothing is allocated or launched and no table is
    returned.  On inputs whose shapes and null counts are valid the message
    is one that names a type.  The dispatch functors themselves reject
    every type outside their supported set.  (The tag of [y] plays no
    part.) *)
Theorem unsupported_types_rejected
    (block_size : Z) (cuda : cuda_runtime)
    (x y timestamp length offset : column_view) :
  floating (type x) = false \/ temporal (type timestamp) = false ->
  (exists msg,
      (forall log,
          trajectory_distance_and_speed block_size cuda x y timestamp length
                                        offset log
          = (Throw msg, log))
      /\ (shape_preconditions x y timestamp length offset = true ->
          In msg type_errors))
  /\ (forall t log,
         is_floating_point t = false ->
         dispatch_element block_size cuda x y timestamp length offset t log
         = (Throw "X and Y must be floating point types"%string, log))
  /\ (forall E t log,
         is_timestamp_t t = false ->
         dispatch_timestamp block_size cuda E x y timestamp length offset t log
         = (Throw "Timestamp must be a timestamp type"%string, log)).
Proof.
  intros Htypes. split.
  2:{ split.
      - intros t log Ht. destruct t; try discriminate Ht; reflexivity.
      - intros E t log Ht. destruct t; try discriminate Ht; reflexivity. }
  unfold floating, temporal in Htypes.
  unfold shape_preconditions,
    trajectory_distance_and_speed, is_timestamp, type_dispatcher.
  destruct (is_empty x); [reject_typed "Insufficient trajectory data"%string|].
  destruct (is_empty length); [reject_typed "Insufficient trajectory data"%string|].
  destruct (size x =? size y); [|reject_typed "Data size mismatch"%string].
  destruct (size x =? size timestamp); [|reject_typed "Data size mismatch"%string].
  destruct (size length =? size offset);
    [|reject_typed "Data size mismatch"%string].
  destruct (id_to_type (type timestamp)) as [tt|];
    [|reject_typed "Unsupported type_id."%string].
  destruct tt; try (reject_typed "Invalid timestamp datatype"%string).
  destruct (type_id_eqb (type length) INT32);
    [|reject_typed "Invalid trajectory length type"%string].
  destruct (type_id_eqb (type offset) INT32);
    [|reject_typed "Invalid trajectory offset type"%string].
  destruct (null_count x =? 0); [|reject_typed "NULL support unimplemented"%string].
  destruct (null_count y =? 0); [|reject_typed "NULL support unimplemented"%string].
  destruct (null_count timestamp =? 0);
    [|reject_typed "NULL support unimplemented"%string].
  destruct (null_count offset =? 0);
    [|reject_typed "NULL support unimplemented"%string].
  destruct (0 <? size offset); [|reject_typed "Insufficient trajectory data"%string].
  destruct (size offset <=? size x);
    [|reject_typed "Insufficient trajectory data"%string].
  destruct (id_to_type (type x)) as [tx|];
    [|reject_typed "Unsupported type_id."%string].
  destruct tx; try (reject_typed "X and Y must be floating point types"%string).
  destruct Htypes; discriminate.
Qed.

(** Integer coordinates are rejected by the element dispatch. *)
Lemma unsupported_types_rejected_witness :
  (exists msg,
      (forall log,
          trajectory_distance_and_speed 256 healthy Examples.int_x
            (Examples.two_y double) (Examples.two_timestamp timestamp_ms 0 1000)
            Examples.two_length Examples.two_offset log
          = (Throw msg, log))
      /\ (shape_preconditions Examples.int_x
            (Examples.two_y double) (Examples.two_timestamp timestamp_ms 0 1000)
            Examples.two_length Examples.two_offset = true ->
          In msg type_errors))
  /\ (forall t log,
         is_floating_point t = false ->
         dispatch_element 256 healthy Examples.int_x
            (Examples.two_y double) (Examples.two_timestamp timestamp_ms 0 1000)
            Examples.two_length Examples.two_offset t log
         = (Throw "X and Y must be floating point types"%string, log))
  /\ (forall E t log,
         is_timestamp_t t = false ->
         dispatch_timestamp 256 healthy E Examples.int_x
            (Examples.two_y double) (Examples.two_timestamp timestamp_ms 0 1000)
            Examples.two_length Examples.two_offset t log
         = (Throw "Timestamp must be a timestamp type"%string, log)).
Proof.
  apply (unsupported_types_rejected 256 healthy Examples.int_x
           (Examples.two_y double) (Examples.two_timestamp timestamp_ms 0 1000)
           Examples.two_length Examples.two_offset).
  left. reflexivity.
Defined.

(** C5 (fails on the code): a [y] column of 64-bit integers beside a
    double-precision [x] is a non-floating-point coordinate column, yet the
    call is not rejected: every validation passes, the element dispatch
    looks at [x] only, and the kernel reads the integers' bytes as doubles
    and returns a table, although the dispatch's own message reads
    "X and Y must be floating point types". *)
Theorem non_floating_y_computes_a_result :
  type Examples.int_y = INT64
  /\ floating (type Examples.int_y) = false
  /\ floating (type (Examples.two_x double)) = true
  /\ temporal (type (Examples.two_timestamp timestamp_ms 0 1000)) = true
  /\ element double Examples.int_y 1 = Some (d_of_int 4)
  /\ trajectory_distance_and_speed 256 healthy
       (Examples.two_x double) Examples.int_y
       (Examples.two_timestamp timestamp_ms 0 1000)
       Examples.two_length Examples.two_offset []
     = (Return ([Some (d_of_int 5000)], [Some (d_of_int 5000)]),
        [ev_alloc 1; ev_alloc 1; ev_launch 1 256; ev_sync]).
Proof.
  repeat split; vm_compute; reflexivity.
Qed.

(** C6: an input that violates any stated precondition makes the call
    throw one of the validation errors, with nothing allocated or launched
    before, and no table returned. *)
Theorem precondition_violation_rejected
    (block_size : Z) (cuda : cuda_runtime)
    (x y timestamp length offset : column_view) :
  preconditions x y timestamp length offset = false ->
  exists msg,
    In msg validation_errors
    /\ forall log,
         trajectory_distance_and_speed block_size cuda x y timestamp length
                                       offset log
         = (Throw msg, log).
Proof.
  unfold preconditions, shape_preconditions, temporal,
    trajectory_distance_and_speed, is_timestamp, type_dispatcher.
  intros Hpre.
  destruct (is_empty x); [reject "Insufficient trajectory data"%string|].
  destruct (is_empty length); [reject "Insufficient trajectory data"%string|].
  destruct (size x =? size y); [|reject "Data size mismatch"%string].
  destruct (size x =? size timestamp); [|reject "Data size mismatch"%string].
  destruct (size length =? size offset); [|reject "Data size mismatch"%string].
  destruct (id_to_type (type timestamp)) as [tt|];
    [|reject "Unsupported type_id."%string].
  destruct tt; try (reject "Invalid timestamp datatype"%string).
  destruct (type_id_eqb (type length) INT32);
    [|reject "Invalid trajectory length type"%string].
  destruct (type_id_eqb (type offset) INT32);
    [|reject "Invalid trajectory offset type"%string].
  destruct (null_count x =? 0); [|reject "NULL support unimplemented"%string].
  destruct (null_count y =? 0); [|reject "NULL support unimplemented"%string].
  destruct (null_count timestamp =? 0);
    [|reject "NULL support unimplemented"%string].
  destruct (null_count offset =? 0); [|reject "NULL support unimplemented"%string].
  destruct (0 <? size offset); [|reject "Insufficient trajectory data"%string].
  destruct (size offset <=? size x);
    [|reject "Insufficient trajectory data"%string].
  discriminate Hpre.
Qed.

(** Point columns of different lengths. *)
Lemma precondition_violation_rejected_witness :
  exists msg,
    In msg validation_errors
    /\ forall log,
         trajectory_distance_and_speed 256 healthy Examples.batch_x
           (Examples.two_y double) Examples.batch_timestamp
           Examples.batch_length Examples.batch_offset log
         = (Throw msg, log).
Proof.
  apply (precondition_violation_rejected 256 healthy Examples.batch_x
           (Examples.two_y double) Examples.batch_timestamp
           Examples.batch_length Examples.batch_offset).
  reflexivity.
Defined.

(** C10: the outcome of a call does not depend on the type tag of the [y]
    column; a call whose [x] is [FLOAT64] and whose [y] is tagged [INT64]
    is not rejected: the kernel runs and reads the integers' bytes as
    doubles. *)
Theorem y_type_not_inspected :
  (forall block_size cuda x y timestamp length offset tag log,
      trajectory_distance_and_speed block_size cuda x (with_type y tag)
                                    timestamp length offset log
      = trajectory_distance_and_speed block_size cuda x y
                                      timestamp length offset log)
  /\ type (Examples.two_x double) = FLOAT64
  /\ type Examples.int_y = INT64
  /\ trajectory_distance_and_speed 256 healthy
       (Examples.two_x double) Examples.int_y
       (Examples.two_timestamp timestamp_ms 0 1000)
       Examples.two_length Examples.two_offset []
     = (Return ([Some (d_of_int 5000)], [Some (d_of_int 5000)]),
        [ev_alloc 1; ev_alloc 1; ev_launch 1 256; ev_sync]).
Proof.
  split; [reflexivity|].
  split; [reflexivity|].
  split; [reflexivity|].
  vm_compute. reflexivity.
Qed.

(* ===================================================================== *)
(** * Independence of the trajectories *)
(* ===================================================================== *)

(** C7: the pair written for trajectory [g] is [trajectory_value] of row
    [g] of the descriptor, a function of that row and of the point and
    timestamp columns only; so a launch on the descriptor with its rows
    permuted by [p] writes the same pairs, permuted by [p]. *)
Theorem outputs_follow_descriptor_rows
    (E : Element) (T : Timestamp)
    (x y timestamp length offset length' offset' : column_view)
    (block_size : Z) (p : list nat) :
  0 < block_size ->
  size length = size offset ->
  size length' = size offset' ->
  size length' = size length ->
  launch_in_bounds E T x y timestamp length offset = true ->
  Permutation p (seq 0 (Z.to_nat (size length))) ->
  (forall g, (g < Z.to_nat (size length))%nat ->
     descriptor_row length' offset' (Z.of_nat g)
     = descriptor_row length offset (Z.of_nat (nth g p 0%nat))) ->
  exists distance speed distance' speed',
    reducer E T x y timestamp length offset block_size
    = Some (distance, speed)
    /\ reducer E T x y timestamp length' offset' block_size
       = Some (distance', speed')
    /\ (forall g, 0 <= g < size length ->
          exists len idx dv sv,
            descriptor_row length offset g = Some (len, idx)
            /\ trajectory_value E T x y timestamp len idx = Some (dv, sv)
            /\ nth_error distance (Z.to_nat g) = Some (Some dv)
            /\ nth_error speed (Z.to_nat g) = Some (Some sv))
    /\ (forall g, (g < Z.to_nat (size length))%nat ->
          nth_error distance' g = nth_error distance (nth g p 0%nat)
          /\ nth_error speed' g = nth_error speed (nth g p 0%nat)).
Proof.
  intros Hb Hsz Hsz' Hsame Hin Hperm Hrows.
  set (n := Z.to_nat (size length)) in *.
  assert (Hdef : forall t, 0 <= t < size length ->
            thread_value E T x y timestamp length offset t <> None).
  { intros t Ht.
    destruct (launch_in_bounds_value E T x y timestamp length offset t
                Hin Ht) as (l & i & tm & _ & _ & Hv).
    rewrite Hv. discriminate. }
  assert (Hp : forall g, (g < n)%nat -> (nth g p 0 < n)%nat).
  { intros g Hg.
    assert (Hlen : List.length p = n).
    { rewrite (Permutation_length Hperm). apply length_seq. }
    assert (Hmem : In (nth g p 0%nat) (seq 0 n)).
    { apply (Permutation_in _ Hperm). apply nth_In. lia. }
    apply in_seq in Hmem. lia. }
  assert (Hval : forall g, (g < n)%nat ->
            thread_value E T x y timestamp length' offset' (Z.of_nat g)
            = thread_value E T x y timestamp length offset
                (Z.of_nat (nth g p 0%nat))).
  { intros g Hg. unfold thread_value. rewrite Hrows by assumption.
    reflexivity. }
  destruct (reducer_runs E T x y timestamp length offset block_size
              Hb Hsz Hdef)
    as (distance & speed & Hrun & _ & _ & Hslots).
  destruct (reducer_runs E T x y timestamp length' offset' block_size
              Hb Hsz')
    as (distance' & speed' & Hrun' & _ & _ & Hslots').
  { intros t Ht. rewrite <- (Z2Nat.id t) by lia.
    rewrite Hval by (subst n; lia).
    apply Hdef. specialize (Hp (Z.to_nat t)). subst n. lia. }
  exists distance, speed, distance', speed'.
  split; [exact Hrun|]. split; [exact Hrun'|]. split.
  - intros g Hg.
    destruct (Hslots g Hg) as (dv & sv & Hv & Hd & Hs).
    unfold thread_value in Hv.
    destruct (descriptor_row length offset g) as [[len idx]|] eqn:Hrow;
      [|discriminate].
    exists len, idx, dv, sv. auto.
  - intros g Hg.
    destruct (Hslots' (Z.of_nat g)) as (dv' & sv' & Hv' & Hd' & Hs');
      [subst n; lia|].
    destruct (Hslots (Z.of_nat (nth g p 0%nat)))
      as (dv & sv & Hv & Hd & Hs).
    { specialize (Hp g Hg). subst n. lia. }
    rewrite Hval in Hv' by assumption.
    rewrite Hv in Hv'. injection Hv' as <- <-.
    rewrite Nat2Z.id in Hd, Hs, Hd', Hs'.
    rewrite Hd, Hs, Hd', Hs'. auto.
Qed.

(** The example batch and the same batch with its rows in the order
    2, 0, 1. *)
Lemma outputs_follow_descriptor_rows_witness :
  exists distance speed distance' speed',
    reducer double timestamp_ms Examples.batch_x Examples.batch_y
            Examples.batch_timestamp Examples.batch_length
            Examples.batch_offset 256
    = Some (distance, speed)
    /\ reducer double timestamp_ms Examples.batch_x Examples.batch_y
               Examples.batch_timestamp Examples.rotated_length
               Examples.rotated_offset 256
       = Some (distance', speed')
    /\ (forall g, 0 <= g < size Examples.batch_length ->
          exists len idx dv sv,
            descriptor_row Examples.batch_length Examples.batch_offset g
            = Some (len, idx)
            /\ trajectory_value double timestamp_ms Examples.batch_x
                 Examples.batch_y Examples.batch_timestamp len idx
               = Some (dv, sv)
            /\ nth_error distance (Z.to_nat g) = Some (Some dv)
            /\ nth_error speed (Z.to_nat g) = Some (Some sv))
    /\ (forall g, (g < Z.to_nat (size Examples.batch_length))%nat ->
          nth_error distance' g = nth_error distance (nth g [2; 0; 1] 0)%nat
          /\ nth_error speed' g = nth_error speed (nth g [2; 0; 1] 0)%nat).
Proof.
  apply (outputs_follow_descriptor_rows double timestamp_ms
           Examples.batch_x Examples.batch_y Examples.batch_timestamp
           Examples.batch_length Examples.batch_offset
           Examples.rotated_length Examples.rotated_offset 256
           [2; 0; 1]%nat).
  - lia.
  - reflexivity.
  - reflexivity.
  - reflexivity.
  - vm_compute. reflexivity.
  - change (Z.to_nat (size Examples.batch_length)) with 3%nat.
    cbn [seq].
    eapply perm_trans; [apply perm_swap | apply perm_skip, perm_swap].
  - change (Z.to_nat (size Examples.batch_length)) with 3%nat.
    intros g Hg.
    destruct g as [|[|[|g]]]; [vm_compute; reflexivity .. | lia].
Defined.

(* ===================================================================== *)
(** * The 3-4-5 trajectory *)
(* ===================================================================== *)

Lemma one_second_elapsed (T : Timestamp) (t0 t1 : Z) :
  (t1 - t0) * chrono.num T = 1000 * chrono.den T ->
  chrono.floor_ms T (chrono.time_point_sub T t1 t0) = 1000.
Proof.
  intros Hsec. unfold chrono.time_point_sub.
  destruct T; cbn in Hsec.
  - exfalso. lia.
  - replace (t1 - t0) with 1 by lia. reflexivity.
  - replace (t1 - t0) with 1000 by lia. reflexivity.
  - replace (t1 - t0) with 1000000 by lia. reflexivity.
  - replace (t1 - t0) with 1000000000 by lia. reflexivity.
Qed.

(** C8: one trajectory of the two points (0,0) and (3,4) whose timestamps
    are one second apart has distance exactly 5000.0 and speed exactly
    5000.0, in either element type and in every timestamp unit. *)
Theorem three_four_five
    (E : Element) (T : Timestamp)
    (x y timestamp length offset : column_view) (block_size t0 t1 : Z) :
  0 < block_size ->
  size length = 1 -> size offset = 1 ->
  descriptor_row length offset 0 = Some (2, 0) ->
  element E x 0 = Some (Float.of_Z (format_of E) 0) ->
  element E y 0 = Some (Float.of_Z (format_of E) 0) ->
  element E x 1 = Some (Float.of_Z (format_of E) 3) ->
  element E y 1 = Some (Float.of_Z (format_of E) 4) ->
  element_timestamp T timestamp 0 = Some t0 ->
  element_timestamp T timestamp 1 = Some t1 ->
  (t1 - t0) * chrono.num T = 1000 * chrono.den T ->
  reducer E T x y timestamp length offset block_size
  = Some ([Some (d_of_int 5000)], [Some (d_of_int 5000)]).
Proof.
  intros Hb Hlen Hoff Hrow Hx0 Hy0 Hx1 Hy1 Ht0 Ht1 Hsec.
  assert (Hval : thread_value E T x y timestamp length offset 0
                 = Some (d_of_int 5000, d_of_int 5000)).
  { unfold thread_value. rewrite Hrow. cbn [fst snd].
    unfold trajectory_value. change (end_index 2 0) with 1.
    unfold elapsed_ms. rewrite Ht1, Ht0.
    rewrite (one_second_elapsed T t0 t1 Hsec).
    change (2 <? 2) with false. change (1000 =? 0) with false. cbv iota.
    change (Z.to_nat (1 - 0)) with 1%nat. cbn [reduce].
    change (0 + 0) with 0. change (0 + 1) with 1.
    rewrite Hx0, Hx1, Hy0, Hy1.
    destruct E; vm_compute; reflexivity. }
  destruct (reducer_runs E T x y timestamp length offset block_size Hb)
    as (distance & speed & Hrun & Hld & Hls & Hslots).
  { congruence. }
  { intros g Hg. replace g with 0 by lia. rewrite Hval. discriminate. }
  rewrite Hrun. rewrite Hlen in Hld, Hls, Hslots.
  destruct (Hslots 0) as (dv & sv & Hv & Hd & Hs); [lia|].
  rewrite Hval in Hv. injection Hv as <- <-.
  destruct distance as [|d0 [|? ?]]; try discriminate Hld.
  destruct speed as [|s0 [|? ?]]; try discriminate Hls.
  cbn in Hd, Hs. injection Hd as ->. injection Hs as ->. reflexivity.
Qed.

(** Single-precision points, microsecond timestamps starting at
    1.6e15 us. *)
Lemma three_four_five_witness :
  reducer float timestamp_us
          (Examples.two_x float) (Examples.two_y float)
          (Examples.two_timestamp timestamp_us
             1600000000000000 1600000001000000)
          Examples.two_length Examples.two_offset 256
  = Some ([Some (d_of_int 5000)], [Some (d_of_int 5000)]).
Proof.
  apply (three_four_five float timestamp_us
           (Examples.two_x float) (Examples.two_y float)
           (Examples.two_timestamp timestamp_us
              1600000000000000 1600000001000000)
           Examples.two_length Examples.two_offset 256
           1600000000000000 1600000001000000).
  - lia.
  - reflexivity.
  - reflexivity.
  - vm_compute. reflexivity.
  - vm_compute. reflexivity.
  - vm_compute. reflexivity.
  - vm_compute. reflexivity.
  - vm_compute. reflexivity.
  - vm_compute. reflexivity.
  - vm_compute. reflexivity.
  - reflexivity.
Defined.

(* ===================================================================== *)
(** * Reads before the length check *)
(* ===================================================================== *)

(** A row of length 0 at offset 0 makes its thread read the timestamp at
    index -1, so the launch is undefined. *)
Lemma zero_length_at_origin_undefined
    (E : Element) (T : Timestamp)
    (x y timestamp length offset : column_view) (block_size g : Z) :
  0 < block_size ->
  size length = size offset ->
  0 <= g < size length ->
  descriptor_row length offset g = Some (0, 0) ->
  reducer E T x y timestamp length offset block_size = None.
Proof.
  intros Hb Hsz Hg Hrow. unfold reducer, launch. rewrite <- Hsz.
  pose proof (grid_covers (size length) block_size Hb) as Hcov.
  apply run_threads_undefined with (g := g); auto.
  - apply in_map_iff. exists (Z.to_nat g). split; [lia|].
    apply in_seq. lia.
  - intros t Ht. apply in_map_iff in Ht. destruct Ht as (k & <- & _). lia.
  - cbn [fst]. rewrite make_numeric_column_length. lia.
  - cbn [snd]. rewrite make_numeric_column_length. lia.
  - unfold thread_value. rewrite Hrow. reflexivity.
Qed.

(** C9 (fails on the code): the input of one point and one trajectory of
    no points passes every validation and satisfies the stated invariant,
    yet the thread reads [timestamp] at index [0 + 0 - 1 = -1], before the
    buffer, ahead of its [len < 2] test: the call is undefined. *)
Theorem empty_trajectory_reads_out_of_bounds :
  preconditions Examples.empty_x Examples.empty_y Examples.empty_timestamp
                Examples.empty_length Examples.empty_offset = true
  /\ stated_invariant Examples.empty_x Examples.empty_length
                      Examples.empty_offset = true
  /\ descriptor_row Examples.empty_length Examples.empty_offset 0
     = Some (0, 0)
  /\ end_index 0 0 = -1
  /\ element_timestamp timestamp_ms Examples.empty_timestamp (-1) = None
  /\ trajectory_distance_and_speed 256 healthy
       Examples.empty_x Examples.empty_y Examples.empty_timestamp
       Examples.empty_length Examples.empty_offset []
     = (Undefined, [ev_alloc 1; ev_alloc 1; ev_launch 1 256]).
Proof.
  repeat split; vm_compute; reflexivity.
Qed.

(* ===================================================================== *)
(** * Any order of the threads *)
(* ===================================================================== *)

Lemma update_update_comm (c : mutable_column) (a b : nat) (v w : float64) :
  a <> b -> update (update c a v) b w = update (update c b w) a v.
Proof.
  revert a b. induction c as [|h t IH]; intros [|a] [|b] Hab; cbn;
    try reflexivity; try congruence.
  f_equal. apply IH. congruence.
Qed.

Section Schedule.

Variables (E : Element) (T : Timestamp).
Variables (x y timestamp length offset : column_view).

Local Abbreviation kernel :=
  (compute_distance_and_speed_kernel E T x y timestamp length offset).
Local Abbreviation value :=
  (thread_value E T x y timestamp length offset).
Local Abbreviation run :=
  (run_threads E T x y timestamp length offset).

(** A thread leaves the lengths of the output columns unchanged. *)
Lemma kernel_lengths (d s d' s' : mutable_column) (tid : Z) :
  0 <= tid ->
  Z.of_nat (List.length d) = size length ->
  Z.of_nat (List.length s) = size length ->
  kernel (d, s) tid = Some (d', s') ->
  List.length d' = List.length d /\ List.length s' = List.length s.
Proof.
  intros Ht Hd Hs Hk.
  destruct (Z.lt_ge_cases tid (size length)) as [Hlt|Hge].
  - rewrite kernel_thread in Hk by lia.
    destruct (value tid) as [[dv sv]|]; [|discriminate].
    injection Hk as <- <-. rewrite !update_length. auto.
  - rewrite kernel_idle in Hk by lia. injection Hk as <- <-. auto.
Qed.

(** Two threads commute. *)
Lemma kernel_swap (d s : mutable_column) (a b : Z) :
  0 <= a -> 0 <= b ->
  Z.of_nat (List.length d) = size length ->
  Z.of_nat (List.length s) = size length ->
  (out <- kernel (d, s) a ; kernel out b)%device
  = (out <- kernel (d, s) b ; kernel out a)%device.
Proof.
  intros Ha Hb Hd Hs.
  destruct (Z.lt_ge_cases a (size length)) as [Hal|Hag];
    destruct (Z.lt_ge_cases b (size length)) as [Hbl|Hbg].
  - rewrite (kernel_thread _ _ _ _ _ _ _ d s a),
            (kernel_thread _ _ _ _ _ _ _ d s b) by lia.
    destruct (value a) as [[da sa]|] eqn:Hva;
      destruct (value b) as [[db sb]|] eqn:Hvb;
      rewrite ?kernel_thread by (rewrite ?update_length; lia);
      rewrite ?Hva, ?Hvb; try reflexivity.
    destruct (Z.eq_dec a b) as [->|Hne].
    + congruence.
    + rewrite (update_update_comm d), (update_update_comm s) by lia.
      reflexivity.
  - rewrite (kernel_idle _ _ _ _ _ _ _ (d, s) b) by lia.
    destruct (kernel (d, s) a) as [out|]; [|reflexivity].
    apply kernel_idle. lia.
  - rewrite (kernel_idle _ _ _ _ _ _ _ (d, s) a) by lia.
    destruct (kernel (d, s) b) as [out|]; [|reflexivity].
    symmetry. apply kernel_idle. lia.
  - rewrite (kernel_idle _ _ _ _ _ _ _ (d, s) a),
            (kernel_idle _ _ _ _ _ _ _ (d, s) b) by lia.
    rewrite !kernel_idle by lia. reflexivity.
Qed.

(** X4: the table a launch produces does not depend on the order in which
    its threads run: running the same thread indices in any other order,
    from the same output columns, gives the same table (or is undefined
    in both orders). *)
Lemma thread_order_irrelevant (tids tids' : list Z) :
  Permutation tids tids' ->
  forall d s,
    (forall t, In t tids -> 0 <= t) ->
    Z.of_nat (List.length d) = size length ->
    Z.of_nat (List.length s) = size length ->
    run tids (d, s) = run tids' (d, s).
Proof.
  induction 1 as [|t l l' Hperm IH|a b l|l l' l'' H1 IH1 H2 IH2];
    intros d s Hpos Hd Hs.
  - reflexivity.
  - cbn [run_threads].
    destruct (kernel (d, s) t) as [[d' s']|] eqn:Hk; [|reflexivity].
    destruct (kernel_lengths d s d' s' t) as [Hd' Hs']; auto.
    { apply Hpos. left. reflexivity. }
    apply IH.
    + intros u Hu. apply Hpos. right. exact Hu.
    + lia.
    + lia.
  - cbn [run_threads].
    assert (Hseq : forall p q,
              match kernel (d, s) p with
              | Some o =>
                  match kernel o q with
                  | Some o' => run l o'
                  | None => None
                  end
              | None => None
              end
              = match (out <- kernel (d, s) p ; kernel out q)%device with
                | Some o' => run l o'
                | None => None
                end).
    { intros p q. destruct (kernel (d, s) p); reflexivity. }
    rewrite !Hseq.
    assert (Hswap : (out <- kernel (d, s) b ; kernel out a)%device
                    = (out <- kernel (d, s) a ; kernel out b)%device).
    { apply kernel_swap; auto; apply Hpos; cbn; auto. }
    rewrite Hswap. reflexivity.
  - rewrite IH1 by assumption. apply IH2; try assumption.
    intros t Ht. apply Hpos.
    apply (Permutation_in _ (Permutation_sym H1)). exact Ht.
Qed.

End Schedule.

(* ===================================================================== *)
(** * From the entry point to the reducer *)
(* ===================================================================== *)

(** On a runtime whose calls all succeed, the launch wrapper allocates
    both columns, launches the reducer and synchronises; it returns the
    reducer's table. *)
Lemma compute_distance_and_speed_reducer
    (block_size : Z) (cuda : cuda_runtime) (E : Element) (T : Timestamp)
    (x y timestamp length offset : column_view) (log : list event) :
  runtime_ok cuda = true ->
  compute_distance_and_speed block_size cuda E T x y timestamp length offset
                             log
  = match reducer E T x y timestamp length offset block_size with
    | Some cols =>
        (Return cols,
         ((log ++ [ev_alloc (size offset)]) ++ [ev_alloc (size offset)])
           ++ [ev_launch (grid_1d_num_blocks (size offset) block_size)
                         block_size]
           ++ [ev_sync])
    | None =>
        (Undefined,
         ((log ++ [ev_alloc (size offset)]) ++ [ev_alloc (size offset)])
           ++ [ev_launch (grid_1d_num_blocks (size offset) block_size)
                         block_size])
    end.
Proof.
  unfold runtime_ok. intros Hok.
  repeat (apply andb_prop in Hok; destruct Hok as [Hok ?]).
  unfold compute_distance_and_speed, allocate_column, CUDA_TRY, reducer,
    bind, emit, ret, undefined.
  repeat match goal with
         | H : ?b = true |- context [?b] => rewrite H
         end.
  destruct (launch E T x y timestamp length offset _ _ _);
    [rewrite <- app_assoc|]; reflexivity.
Qed.

(** Every outcome of the launch wrapper: it never throws a
    [cudf::logic_error]; an allocation failure comes before or after the
    first allocation, a CUDA error after both allocations or after the
    synchronisation; a table is returned only from a launch that
    completed, on a runtime whose calls all succeeded. *)
Lemma compute_distance_and_speed_outcomes
    (block_size : Z) (cuda : cuda_runtime) (E : Element) (T : Timestamp)
    (x y timestamp length offset : column_view) (log log' : list event)
    (o : outcome table) :
  compute_distance_and_speed block_size cuda E T x y timestamp length offset
                             log
  = (o, log') ->
  let n := size offset in
  let launched :=
    [ev_alloc n; ev_alloc n;
     ev_launch (grid_1d_num_blocks n block_size) block_size] in
  match o with
  | Return cols =>
      reducer E T x y timestamp length offset block_size = Some cols
      /\ log' = log ++ launched ++ [ev_sync]
      /\ runtime_ok cuda = true
  | Throw _ => False
  | Throw_bad_alloc => log' = log \/ log' = log ++ [ev_alloc n]
  | Throw_cuda_error status =>
      status <> cudaSuccess
      /\ (log' = log ++ [ev_alloc n; ev_alloc n]
          \/ log' = log ++ launched ++ [ev_sync])
  | Undefined =>
      reducer E T x y timestamp length offset block_size = None
      /\ log' = log ++ launched
  end.
Proof.
  unfold runtime_ok, compute_distance_and_speed, allocate_column, CUDA_TRY,
    reducer, bind, emit, ret, undefined.
  destruct (allocation_succeeds cuda 0).
  2:{ intros H. injection H as <- <-. left. reflexivity. }
  destruct (allocation_succeeds cuda 1).
  2:{ intros H. injection H as <- <-. right. reflexivity. }
  destruct (occupancy_status cuda =? cudaSuccess) eqn:Hocc.
  2:{ intros H. injection H as <- <-. apply Z.eqb_neq in Hocc.
      split; [exact Hocc|]. left. rewrite <- app_assoc. reflexivity. }
  destruct (launch E T x y timestamp length offset _ _ _) as [cols|].
  2:{ intros H. injection H as <- <-. split; [reflexivity|].
      rewrite <- !app_assoc. reflexivity. }
  destruct (synchronize_status cuda =? cudaSuccess) eqn:Hsync.
  2:{ intros H. injection H as <- <-. apply Z.eqb_neq in Hsync.
      split; [exact Hsync|]. right. rewrite <- !app_assoc. reflexivity. }
  destruct (check_status cuda =? cudaSuccess) eqn:Hchk.
  2:{ intros H. injection H as <- <-. apply Z.eqb_neq in Hchk.
      split; [exact Hchk|]. right. rewrite <- !app_assoc. reflexivity. }
  intros H. injection H as <- <-.
  split; [reflexivity|]. split; [|reflexivity].
  rewrite <- !app_assoc. reflexivity.
Qed.

(** On valid input with a floating-point [x] and a temporal [timestamp]
    the entry point is the launch wrapper at the types of the tags. *)
Lemma entry_point_dispatches
    (block_size : Z) (cuda : cuda_runtime) (E : Element) (T : Timestamp)
    (x y timestamp length offset : column_view) (log : list event) :
  preconditions x y timestamp length offset = true ->
  id_to_type (type x) = Some (t_floating E) ->
  id_to_type (type timestamp) = Some (t_timestamp T) ->
  trajectory_distance_and_speed block_size cuda x y timestamp length offset log
  = compute_distance_and_speed block_size cuda E T x y timestamp length offset
                               log.
Proof.
  unfold preconditions, shape_preconditions, temporal.
  intros Hpre Hx Ht.
  unfold trajectory_distance_and_speed, is_timestamp, type_dispatcher.
  rewrite Hx. rewrite Ht in *.
  destruct (is_empty x); [discriminate Hpre|].
  destruct (is_empty length); [discriminate Hpre|].
  destruct (size x =? size y); [|discriminate Hpre].
  destruct (size x =? size timestamp); [|discriminate Hpre].
  destruct (size length =? size offset); [|discriminate Hpre].
  destruct (null_count x =? 0); [|discriminate Hpre].
  destruct (null_count y =? 0); [|discriminate Hpre].
  destruct (null_count timestamp =? 0); [|discriminate Hpre].
  destruct (null_count offset =? 0); [|discriminate Hpre].
  destruct (0 <? size offset); [|discriminate Hpre].
  destruct (size offset <=? size x); [|discriminate Hpre].
  destruct (type_id_eqb (type length) INT32); [|discriminate Hpre].
  destruct (type_id_eqb (type offset) INT32); [|discriminate Hpre].
  unfold bind, CUDF_EXPECTS, ret. cbn [negb andb is_timestamp_t].
  unfold dispatch_element, type_dispatcher. rewrite Ht. reflexivity.
Qed.

(** The example batch end to end: the one-point trajectory gets -2.0, the
    trajectory with identical timestamps -3.0, and the three-point
    trajectory 9000 m at 4500 m/s, in one call. *)
Example batch_end_to_end :
  trajectory_distance_and_speed 256 healthy
    Examples.batch_x Examples.batch_y Examples.batch_timestamp
    Examples.batch_length Examples.batch_offset []
  = (Return ([Some d_neg2; Some d_neg3; Some (d_of_int 9000)],
             [Some d_neg2; Some d_neg3; Some (d_of_int 4500)]),
     [ev_alloc 3; ev_alloc 3; ev_launch 1 256; ev_sync]).
Proof. vm_compute. reflexivity. Qed.

(* ===================================================================== *)
(** * Further properties of the launch *)
(* ===================================================================== *)

Section LaunchShape.

Variables (E : Element) (T : Timestamp).
Variables (x y timestamp length offset : column_view).
Variable block_size : Z.

Hypothesis block_size_pos : 0 < block_size.
Hypothesis descriptor_sizes : size length = size offset.

(** The threads beyond the last trajectory change nothing: a launch is the
    run of the threads [0 .. size length - 1]. *)
Lemma reducer_canonical :
  reducer E T x y timestamp length offset block_size
  = run_threads E T x y timestamp length offset
      (map Z.of_nat (seq 0 (Z.to_nat (size length))))
      (make_numeric_column (size length), make_numeric_column (size length)).
Proof.
  unfold reducer, launch. rewrite <- descriptor_sizes.
  set (n := size length) in *.
  destruct (Z.le_gt_cases 0 n) as [Hn|Hn].
  - pose proof (grid_covers n block_size block_size_pos Hn) as Hcov.
    set (N := grid_1d_num_blocks n block_size * block_size) in *.
    replace (Z.to_nat N) with (Z.to_nat n + (Z.to_nat N - Z.to_nat n))%nat
      by lia.
    rewrite seq_app, map_app, run_threads_app.
    destruct (run_threads E T x y timestamp length offset
                (map Z.of_nat (seq 0 (Z.to_nat n))) _) as [out|];
      [|reflexivity].
    apply run_threads_idle. fold n. lia.
  - replace (Z.to_nat n) with 0%nat by lia. cbn [seq map run_threads].
    apply run_threads_idle. fold n. lia.
Qed.

(** One undefined thread makes the launch undefined. *)
Lemma reducer_undefined_thread (g : Z) :
  0 <= g < size length ->
  thread_value E T x y timestamp length offset g = None ->
  reducer E T x y timestamp length offset block_size = None.
Proof.
  intros Hg Hv. unfold reducer, launch. rewrite <- descriptor_sizes.
  pose proof (grid_covers (size length) block_size block_size_pos) as Hcov.
  apply run_threads_undefined with (g := g); auto.
  - apply in_map_iff. exists (Z.to_nat g). split; [lia|].
    apply in_seq. lia.
  - intros t Ht. apply in_map_iff in Ht. destruct Ht as (k & <- & _). lia.
  - cbn [fst]. rewrite make_numeric_column_length. lia.
  - cbn [snd]. rewrite make_numeric_column_length. lia.
Qed.

(** A launch that produced a table ran every thread without undefined
    behaviour and left each thread's value in its slot. *)
Lemma reducer_slots (distance speed : mutable_column) :
  reducer E T x y timestamp length offset block_size
  = Some (distance, speed) ->
  List.length distance = Z.to_nat (size length)
  /\ List.length speed = Z.to_nat (size length)
  /\ forall g, 0 <= g < size length ->
       exists dv sv,
         thread_value E T x y timestamp length offset g = Some (dv, sv)
         /\ nth_error distance (Z.to_nat g) = Some (Some dv)
         /\ nth_error speed (Z.to_nat g) = Some (Some sv).
Proof.
  intros Hrun.
  destruct (reducer_runs E T x y timestamp length offset block_size
              block_size_pos descriptor_sizes)
    as (d & s & Hrun' & Hld & Hls & Hslots).
  { intros g Hg Hnone.
    rewrite (reducer_undefined_thread g Hg Hnone) in Hrun. discriminate. }
  rewrite Hrun in Hrun'. injection Hrun' as <- <-. auto.
Qed.

End LaunchShape.

(** X3: the table a launch produces does not depend on the block size the
    occupancy query chose. *)
Theorem block_size_irrelevant
    (E : Element) (T : Timestamp)
    (x y timestamp length offset : column_view) (b1 b2 : Z) :
  0 < b1 -> 0 < b2 ->
  size length = size offset ->
  reducer E T x y timestamp length offset b1
  = reducer E T x y timestamp length offset b2.
Proof.
  intros H1 H2 Hsz.
  rewrite (reducer_canonical E T x y timestamp length offset b1 H1 Hsz).
  rewrite (reducer_canonical E T x y timestamp length offset b2 H2 Hsz).
  reflexivity.
Qed.

(** The example batch with blocks of 1 thread and of 1024 threads. *)
Lemma block_size_irrelevant_witness :
  reducer double timestamp_ms Examples.batch_x Examples.batch_y
          Examples.batch_timestamp Examples.batch_length
          Examples.batch_offset 1
  = reducer double timestamp_ms Examples.batch_x Examples.batch_y
            Examples.batch_timestamp Examples.batch_length
            Examples.batch_offset 1024.
Proof.
  apply (block_size_irrelevant double timestamp_ms
           Examples.batch_x Examples.batch_y Examples.batch_timestamp
           Examples.batch_length Examples.batch_offset 1 1024).
  - lia.
  - lia.
  - reflexivity.
Defined.

(** The threads of the example batch in the orders 0, 1, 2 and 2, 0, 1. *)
Lemma thread_order_irrelevant_witness :
  run_threads double timestamp_ms Examples.batch_x Examples.batch_y
              Examples.batch_timestamp Examples.batch_length
              Examples.batch_offset [0; 1; 2]
              (make_numeric_column 3, make_numeric_column 3)
  = run_threads double timestamp_ms Examples.batch_x Examples.batch_y
                Examples.batch_timestamp Examples.batch_length
                Examples.batch_offset [2; 0; 1]
                (make_numeric_column 3, make_numeric_column 3).
Proof.
  apply (thread_order_irrelevant double timestamp_ms
           Examples.batch_x Examples.batch_y Examples.batch_timestamp
           Examples.batch_length Examples.batch_offset
           [0; 1; 2] [2; 0; 1]).
  - apply Permutation_sym.
    eapply perm_trans; [apply perm_swap | apply perm_skip, perm_swap].
  - intros t Ht. cbn in Ht. lia.
  - reflexivity.
  - reflexivity.
Defined.

(** X9: a launch without undefined behaviour has read, for every row of
    the descriptor (also a row of length 0 or 1), the timestamps at the
    row's first index and at its last index [offset + length - 1]: both
    lie inside the timestamp buffer. *)
Theorem timestamp_reads_are_unconditional
    (E : Element) (T : Timestamp)
    (x y timestamp length offset : column_view)
    (block_size g len idx : Z) (out : table) :
  0 < block_size ->
  size length = size offset ->
  reducer E T x y timestamp length offset block_size = Some out ->
  0 <= g < size length ->
  descriptor_row length offset g = Some (len, idx) ->
  (0 <= idx
   /\ (idx + 1) * sizeof_Timestamp T
      <= Z.of_nat (List.length (data timestamp)))
  /\ (0 <= end_index len idx
      /\ (end_index len idx + 1) * sizeof_Timestamp T
         <= Z.of_nat (List.length (data timestamp))).
Proof.
  intros Hb Hsz Hrun Hg Hrow. destruct out as [distance speed].
  destruct (reducer_slots E T x y timestamp length offset block_size
              Hb Hsz distance speed Hrun) as (_ & _ & Hslots).
  destruct (Hslots g Hg) as (dv & sv & Hv & _ & _).
  unfold thread_value in Hv. rewrite Hrow in Hv. cbn [fst snd] in Hv.
  unfold trajectory_value, elapsed_ms, element_timestamp in Hv.
  assert (Hload : forall i,
            Buffer.load (data timestamp) (sizeof_Timestamp T) i <> None ->
            0 <= i
            /\ (i + 1) * sizeof_Timestamp T
               <= Z.of_nat (List.length (data timestamp))).
  { intros i Hi. unfold Buffer.load in Hi.
    destruct (0 <=? i) eqn:H0; [|elim Hi; reflexivity].
    destruct ((i + 1) * sizeof_Timestamp T
              <=? Z.of_nat (List.length (data timestamp))) eqn:H1;
      [|elim Hi; reflexivity].
    apply Z.leb_le in H0, H1. auto. }
  destruct (Buffer.load (data timestamp) (sizeof_Timestamp T)
              (end_index len idx)) eqn:Hend; [|discriminate Hv].
  destruct (Buffer.load (data timestamp) (sizeof_Timestamp T) idx) eqn:Hidx;
    [|discriminate Hv].
  split; apply Hload; congruence.
Qed.

(** Row 0 of the example batch, a trajectory of one point. *)
Lemma timestamp_reads_are_unconditional_witness :
  (0 <= 0
   /\ (0 + 1) * sizeof_Timestamp timestamp_ms
      <= Z.of_nat (List.length (data Examples.batch_timestamp)))
  /\ (0 <= end_index 1 0
      /\ (end_index 1 0 + 1) * sizeof_Timestamp timestamp_ms
         <= Z.of_nat (List.length (data Examples.batch_timestamp))).
Proof.
  apply (timestamp_reads_are_unconditional double timestamp_ms
           Examples.batch_x Examples.batch_y Examples.batch_timestamp
           Examples.batch_length Examples.batch_offset 256 0 1 0
           ([Some d_neg2; Some d_neg3; Some (d_of_int 9000)],
            [Some d_neg2; Some d_neg3; Some (d_of_int 4500)])).
  - lia.
  - reflexivity.
  - vm_compute. reflexivity.
  - cbn. lia.
  - vm_compute. reflexivity.
Defined.

(* ===================================================================== *)
(** * Further properties of the entry point *)
(* ===================================================================== *)

(** X1: on a runtime whose allocations, occupancy query, synchronisation
    and error check all succeed, a call returns a table when its input
    meets the stated preconditions, its [x] and [timestamp] tags name the
    types [E] and [T], and the launch is in bounds: the buffers of [x],
    [y] and [timestamp] hold [size x] objects of type [E], [E] and [T]
    (so [y] must really hold elements of [x]'s type), the descriptor
    buffers hold their rows, and every trajectory starts and ends inside
    the point arrays.  The call has then allocated two columns, launched
    the kernel once and synchronised, in this order. *)
Theorem valid_call_returns
    (block_size : Z) (cuda : cuda_runtime) (E : Element) (T : Timestamp)
    (x y timestamp length offset : column_view) (log : list event) :
  0 < block_size ->
  runtime_ok cuda = true ->
  preconditions x y timestamp length offset = true ->
  id_to_type (type x) = Some (t_floating E) ->
  id_to_type (type timestamp) = Some (t_timestamp T) ->
  launch_in_bounds E T x y timestamp length offset = true ->
  exists cols,
    trajectory_distance_and_speed block_size cuda x y timestamp length
                                  offset log
    = (Return cols, log ++ completed_call (size offset) block_size)
    /\ reducer E T x y timestamp length offset block_size = Some cols.
Proof.
  intros Hb Hok Hpre Hx Ht Hin.
  rewrite (entry_point_dispatches block_size cuda E T x y timestamp length
             offset log Hpre Hx Ht).
  rewrite compute_distance_and_speed_reducer by assumption.
  assert (Hsz : size length = size offset).
  { unfold preconditions, shape_preconditions in Hpre.
    repeat (apply andb_prop in Hpre; destruct Hpre as [Hpre ?]).
    apply Z.eqb_eq. assumption. }
  destruct (reducer_runs E T x y timestamp length offset block_size Hb Hsz)
    as (distance & speed & Hrun & _).
  { intros g Hg.
    destruct (launch_in_bounds_value E T x y timestamp length offset g
                Hin Hg) as (l & i & tm & _ & _ & Hv).
    rewrite Hv. discriminate. }
  exists (distance, speed). rewrite Hrun. split; [|reflexivity].
  unfold completed_call. rewrite <- !app_assoc. reflexivity.
Qed.

(** The example batch, on the runtime whose calls all succeed. *)
Lemma valid_call_returns_witness :
  exists cols,
    trajectory_distance_and_speed 256 healthy
      Examples.batch_x Examples.batch_y Examples.batch_timestamp
      Examples.batch_length Examples.batch_offset []
    = (Return cols,
       [] ++ completed_call (size Examples.batch_offset) 256)
    /\ reducer double timestamp_ms
         Examples.batch_x Examples.batch_y Examples.batch_timestamp
         Examples.batch_length Examples.batch_offset 256 = Some cols.
Proof.
  apply (valid_call_returns 256 healthy double timestamp_ms
           Examples.batch_x Examples.batch_y Examples.batch_timestamp
           Examples.batch_length Examples.batch_offset []).
  - lia.
  - reflexivity.
  - vm_compute. reflexivity.
  - reflexivity.
  - reflexivity.
  - vm_compute. reflexivity.
Defined.

(** A failed validation throws, and leaves the log as it was. *)
Lemma precondition_violation_rejected_aux
    (block_size : Z) (cuda : cuda_runtime)
    (x y timestamp length offset : column_view) :
  preconditions x y timestamp length offset = false ->
  exists msg,
    In msg validation_errors
    /\ forall log,
         trajectory_distance_and_speed block_size cuda x y timestamp length
                                       offset log
         = (Throw msg, log).
Proof.
  unfold preconditions, shape_preconditions, temporal,
    trajectory_distance_and_speed, is_timestamp, type_dispatcher.
  intros Hpre.
  destruct (is_empty x); [reject "Insufficient trajectory data"%string|].
  destruct (is_empty length);
    [reject "Insufficient trajectory data"%string|].
  destruct (size x =? size y); [|reject "Data size mismatch"%string].
  destruct (size x =? size timestamp); [|reject "Data size mismatch"%string].
  destruct (size length =? size offset);
    [|reject "Data size mismatch"%string].
  destruct (id_to_type (type timestamp)) as [tt|];
    [|reject "Unsupported type_id."%string].
  destruct tt; try (reject "Invalid timestamp datatype"%string).
  destruct (type_id_eqb (type length) INT32);
    [|reject "Invalid trajectory length type"%string].
  destruct (type_id_eqb (type offset) INT32);
    [|reject "Invalid trajectory offset type"%string].
  destruct (null_count x =? 0);
    [|reject "NULL support unimplemented"%string].
  destruct (null_count y =? 0);
    [|reject "NULL support unimplemented"%string].
  destruct (null_count timestamp =? 0);
    [|reject "NULL support unimplemented"%string].
  destruct (null_count offset =? 0);
    [|reject "NULL support unimplemented"%string].
  destruct (0 <? size offset);
    [|reject "Insufficient trajectory data"%string].
  destruct (size offset <=? size x);
    [|reject "Insufficient trajectory data"%string].
  discriminate Hpre.
Qed.

(** Shared case analysis: the entry point either throws one of its
    messages with the log unchanged, or is the launch wrapper at the types
    named by the tags, all preconditions holding. *)
Lemma entry_point_cases
    (block_size : Z) (cuda : cuda_runtime)
    (x y timestamp length offset : column_view) :
  (exists msg,
      In msg thrown_messages
      /\ forall log,
           trajectory_distance_and_speed block_size cuda x y timestamp length
                                         offset log
           = (Throw msg, log))
  \/ (exists E T,
         preconditions x y timestamp length offset = true
         /\ id_to_type (type x) = Some (t_floating E)
         /\ id_to_type (type timestamp) = Some (t_timestamp T)
         /\ forall log,
              trajectory_distance_and_speed block_size cuda x y timestamp length
                                            offset log
              = compute_distance_and_speed block_size cuda E T x y timestamp
                                           length offset log).
Proof.
  destruct (preconditions x y timestamp length offset) eqn:Hpre.
  2:{ left.
      destruct (precondition_violation_rejected_aux block_size cuda x y timestamp
                  length offset Hpre) as (msg & Hin & Hthrow).
      exists msg. split; [|exact Hthrow].
      cbn in Hin |- *. tauto. }
  assert (Htemp : temporal (type timestamp) = true).
  { unfold preconditions in Hpre.
    repeat (apply andb_prop in Hpre; destruct Hpre as [Hpre ?]).
    assumption. }
  unfold temporal in Htemp.
  destruct (id_to_type (type timestamp)) as [tt|] eqn:Hts; [|discriminate].
  destruct tt as [| | | | | |T|]; try discriminate Htemp.
  destruct (id_to_type (type x)) as [tx|] eqn:Hx.
  - destruct tx as [| | | | |E| |];
      try (left; exists "X and Y must be floating point types"%string;
           split; [cbn; tauto|];
           intros log;
           revert Hpre; unfold preconditions, shape_preconditions, temporal,
             trajectory_distance_and_speed, is_timestamp, type_dispatcher;
           rewrite Hx, Hts;
           destruct (is_empty x); [discriminate|];
           destruct (is_empty length); [discriminate|];
           destruct (size x =? size y); [|discriminate];
           destruct (size x =? size timestamp); [|discriminate];
           destruct (size length =? size offset); [|discriminate];
           destruct (null_count x =? 0); [|discriminate];
           destruct (null_count y =? 0); [|discriminate];
           destruct (null_count timestamp =? 0); [|discriminate];
           destruct (null_count offset =? 0); [|discriminate];
           destruct (0 <? size offset); [|discriminate];
           destruct (size offset <=? size x); [|discriminate];
           destruct (type_id_eqb (type length) INT32); [|discriminate];
           destruct (type_id_eqb (type offset) INT32); [|discriminate];
           reflexivity).
    right. exists E, T. repeat split; auto.
    intros log. apply entry_point_dispatches; assumption.
  - left. exists "Unsupported type_id."%string. split; [cbn; tauto|].
    intros log.
    revert Hpre; unfold preconditions, shape_preconditions, temporal,
      trajectory_distance_and_speed, is_timestamp, type_dispatcher;
    rewrite Hx, Hts;
    destruct (is_empty x); [discriminate|];
    destruct (is_empty length); [discriminate|];
    destruct (size x =? size y); [|discriminate];
    destruct (size x =? size timestamp); [|discriminate];
    destruct (size length =? size offset); [|discriminate];
    destruct (null_count x =? 0); [|discriminate];
    destruct (null_count y =? 0); [|discriminate];
    destruct (null_count timestamp =? 0); [|discriminate];
    destruct (null_count offset =? 0); [|discriminate];
    destruct (0 <? size offset); [|discriminate];
    destruct (size offset <=? size x); [|discriminate];
    destruct (type_id_eqb (type length) INT32); [|discriminate];
    destruct (type_id_eqb (type offset) INT32); [|discriminate];
    reflexivity.
Qed.

(** X2: whenever the call returns a table, every precondition held, the
    events were exactly two allocations, one launch and one
    synchronisation, and both columns have one row per trajectory, each
    row written by the kernel. *)
Theorem returned_table_is_complete
    (block_size : Z) (cuda : cuda_runtime)
    (x y timestamp length offset : column_view)
    (log log' : list event) (distance speed : mutable_column) :
  0 < block_size ->
  trajectory_distance_and_speed block_size cuda x y timestamp length offset log
  = (Return (distance, speed), log') ->
  preconditions x y timestamp length offset = true
  /\ log' = log ++ completed_call (size offset) block_size
  /\ List.length distance = Z.to_nat (size offset)
  /\ List.length speed = Z.to_nat (size offset)
  /\ forall g, (g < Z.to_nat (size offset))%nat ->
       exists dv sv,
         nth_error distance g = Some (Some dv)
         /\ nth_error speed g = Some (Some sv).
Proof.
  intros Hb Hret.
  destruct (entry_point_cases block_size cuda x y timestamp length offset)
    as [(msg & _ & Hthrow) | (E & T & Hpre & _ & _ & Hrun)].
  { rewrite Hthrow in Hret. discriminate. }
  rewrite Hrun in Hret.
  apply compute_distance_and_speed_outcomes in Hret.
  destruct Hret as (Hred & Hlog & _).
  assert (Hsz : size length = size offset).
  { unfold preconditions, shape_preconditions in Hpre.
    repeat (apply andb_prop in Hpre; destruct Hpre as [Hpre ?]).
    apply Z.eqb_eq. assumption. }
  destruct (reducer_slots E T x y timestamp length offset block_size
              Hb Hsz distance speed Hred) as (Hld & Hls & Hslots).
  rewrite Hsz in Hld, Hls, Hslots.
  split; [exact Hpre|]. split; [exact Hlog|].
  split; [exact Hld|]. split; [exact Hls|].
  intros g Hg.
  destruct (Hslots (Z.of_nat g)) as (dv & sv & _ & Hd & Hs); [lia|].
  rewrite Nat2Z.id in Hd, Hs. eauto.
Qed.

(** The example batch. *)
Lemma returned_table_is_complete_witness :
  preconditions Examples.batch_x Examples.batch_y Examples.batch_timestamp
                Examples.batch_length Examples.batch_offset = true
  /\ [ev_alloc 3; ev_alloc 3; ev_launch 1 256; ev_sync]
     = [] ++ completed_call (size Examples.batch_offset) 256
  /\ List.length [Some d_neg2; Some d_neg3; Some (d_of_int 9000)]
     = Z.to_nat (size Examples.batch_offset)
  /\ List.length [Some d_neg2; Some d_neg3; Some (d_of_int 4500)]
     = Z.to_nat (size Examples.batch_offset)
  /\ forall g, (g < Z.to_nat (size Examples.batch_offset))%nat ->
       exists dv sv,
         nth_error [Some d_neg2; Some d_neg3; Some (d_of_int 9000)] g
         = Some (Some dv)
         /\ nth_error [Some d_neg2; Some d_neg3; Some (d_of_int 4500)] g
            = Some (Some sv).
Proof.
  apply (returned_table_is_complete 256 healthy
           Examples.batch_x Examples.batch_y Examples.batch_timestamp
           Examples.batch_length Examples.batch_offset []).
  - lia.
  - vm_compute. reflexivity.
Defined.



(** X11: the null count of the [length] column is never examined: a call
    whose [length] column reports nulls has the outcome of the same call
    without them. *)
Theorem length_nulls_not_inspected
    (block_size n : Z) (cuda : cuda_runtime)
    (x y timestamp length offset : column_view)
    (log : list event) :
  trajectory_distance_and_speed block_size cuda x y timestamp
                                (with_null_count length n) offset log
  = trajectory_distance_and_speed block_size cuda x y timestamp length offset
                                  log.
Proof. reflexivity. Qed.

(* ===================================================================== *)
(** * What a trajectory's value depends on *)
(* ===================================================================== *)

Lemma reduce_agree (E : Element) (x y x' y' : column_view)
    (k : nat) (i : Z) (acc : float64) :
  (forall j, (0 < k)%nat -> i <= j <= i + Z.of_nat k ->
     element E x j = element E x' j /\ element E y j = element E y' j) ->
  reduce E x y k i acc = reduce E x' y' k i acc.
Proof.
  revert i acc. induction k as [|k IH]; intros i acc Hagree; [reflexivity|].
  cbn [reduce]. rewrite Z.add_0_r.
  destruct (Hagree i) as [Hx0 Hy0]; [lia | lia |].
  destruct (Hagree (i + 1)) as [Hx1 Hy1]; [lia | lia |].
  rewrite Hx0, Hx1, Hy0, Hy1.
  destruct (element E x' i); [|reflexivity].
  destruct (element E x' (i + 1)); [|reflexivity].
  destruct (element E y' i); [|reflexivity].
  destruct (element E y' (i + 1)); [|reflexivity].
  apply IH. intros j Hk Hj. apply Hagree; lia.
Qed.

(** X5: the value of a trajectory depends on the coordinates of its own
    points and on the timestamps of its first and last point, and on
    nothing else: columns that agree there give the same value.  The
    timestamps strictly between first and last are never read. *)
Theorem trajectory_value_local
    (E : Element) (T : Timestamp)
    (x y timestamp x' y' timestamp' : column_view) (len idx : Z) :
  (forall i, idx <= i <= end_index len idx ->
     element E x i = element E x' i /\ element E y i = element E y' i) ->
  element_timestamp T timestamp idx = element_timestamp T timestamp' idx ->
  element_timestamp T timestamp (end_index len idx)
  = element_timestamp T timestamp' (end_index len idx) ->
  trajectory_value E T x y timestamp len idx
  = trajectory_value E T x' y' timestamp' len idx.
Proof.
  intros Hxy Hfirst Hlast. unfold trajectory_value, elapsed_ms.
  rewrite Hfirst, Hlast.
  destruct (element_timestamp T timestamp' (end_index len idx));
    [|reflexivity].
  destruct (element_timestamp T timestamp' idx); [|reflexivity].
  destruct (len <? 2); [reflexivity|].
  destruct (_ =? 0); [reflexivity|].
  rewrite (reduce_agree E x y x' y'); [reflexivity|].
  intros j Hk Hj. apply Hxy. lia.
Qed.

(** The third trajectory of the example batch, with the other
    trajectories' points moved and an inner timestamp changed. *)
Lemma trajectory_value_local_witness :
  trajectory_value double timestamp_ms Examples.batch_x Examples.batch_y
                   Examples.batch_timestamp 3 3
  = trajectory_value double timestamp_ms MoreExamples.moved_x
                     MoreExamples.moved_y MoreExamples.moved_timestamp 3 3.
Proof.
  apply (trajectory_value_local double timestamp_ms
           Examples.batch_x Examples.batch_y Examples.batch_timestamp
           MoreExamples.moved_x MoreExamples.moved_y
           MoreExamples.moved_timestamp 3 3).
  - change (end_index 3 3) with 5. intros i Hi.
    assert (Hcases : i = 3 \/ i = 4 \/ i = 5) by lia.
    destruct Hcases as [-> | [-> | ->]]; split; vm_compute; reflexivity.
  - vm_compute. reflexivity.
  - vm_compute. reflexivity.
Defined.

(** X6: a trajectory that gets a sentinel (fewer than two points, or zero
    elapsed milliseconds) is computed without reading any coordinate: its
    value is the same under any other pair of coordinate columns, empty
    ones included. *)
Theorem sentinel_ignores_coordinates
    (E : Element) (T : Timestamp)
    (x y x' y' timestamp : column_view) (len idx : Z) :
  len < 2 \/ elapsed_ms T timestamp idx (end_index len idx) = Some 0 ->
  trajectory_value E T x y timestamp len idx
  = trajectory_value E T x' y' timestamp len idx.
Proof.
  intros Hcase. unfold trajectory_value.
  destruct (elapsed_ms T timestamp idx (end_index len idx)) as [time_ms|];
    [|reflexivity].
  destruct (len <? 2) eqn:Hlen; [reflexivity|].
  apply Z.ltb_ge in Hlen.
  destruct Hcase as [Hlt|Hzero]; [lia|].
  injection Hzero as ->. reflexivity.
Qed.

(** The second trajectory of the example batch, with coordinate columns
    that hold no data. *)
Lemma sentinel_ignores_coordinates_witness :
  trajectory_value double timestamp_ms Examples.batch_x Examples.batch_y
                   Examples.batch_timestamp 2 1
  = trajectory_value double timestamp_ms MoreExamples.no_points
                     MoreExamples.no_points Examples.batch_timestamp 2 1.
Proof.
  apply (sentinel_ignores_coordinates double timestamp_ms
           Examples.batch_x Examples.batch_y
           MoreExamples.no_points MoreExamples.no_points
           Examples.batch_timestamp 2 1).
  right. vm_compute. reflexivity.
Defined.

(* ===================================================================== *)
(** * Signs of the computed distance *)
(* ===================================================================== *)

Section Signs.

Variables prec emax : Z.

Lemma binary_round_aux_not_negative (mx ex : Z) (lx : location) :
  not_negative (binary_round_aux prec emax false mx ex lx) = true.
Proof.
  unfold binary_round_aux.
  destruct (shr_fexp prec emax mx ex lx) as [mrs e'].
  destruct (shr_fexp prec emax _ e' loc_Exact) as [mrs'' e''].
  destruct (shr_m mrs''); [reflexivity | | reflexivity].
  destruct (Z.leb e'' (Z.sub emax prec)); reflexivity.
Qed.

Lemma binary_round_not_negative (m : positive) (e : Z) :
  not_negative (binary_round prec emax false m e) = true.
Proof.
  unfold binary_round. destruct (shl_align m e _) as [mz ez].
  apply binary_round_aux_not_negative.
Qed.

Lemma SFmul_self_not_negative (v : spec_float) :
  not_negative (SFmul prec emax v v) = true.
Proof.
  destruct v as [s|s| |s m e]; cbn [SFmul]; try reflexivity.
  - destruct s; reflexivity.
  - destruct s; reflexivity.
  - unfold SFmul. replace (xorb s s) with false by (destruct s; reflexivity).
    apply binary_round_aux_not_negative.
Qed.

Lemma SFadd_not_negative (a b : spec_float) :
  not_negative a = true -> not_negative b = true ->
  not_negative (SFadd prec emax a b) = true.
Proof.
  intros Ha Hb.
  destruct a as [[|]|[|]| |[|] ma ea]; try discriminate Ha;
    destruct b as [[|]|[|]| |[|] mb eb]; try discriminate Hb;
    try reflexivity.
  unfold SFadd, cond_Zopp. cbn [Z.add]. unfold binary_normalize.
  apply binary_round_not_negative.
Qed.

Lemma SFsqrt_not_negative (a : spec_float) :
  not_negative a = true -> not_negative (SFsqrt prec emax a) = true.
Proof.
  intros Ha.
  destruct a as [[|]|[|]| |[|] m e]; try discriminate Ha; try reflexivity.
  unfold SFsqrt.
  destruct (SFsqrt_core_binary prec emax (Zpos m) e) as [[mz ez] lz].
  apply binary_round_aux_not_negative.
Qed.

Lemma SFmul_positive_not_negative (a : spec_float) (m : positive) (e : Z) :
  not_negative a = true ->
  not_negative (SFmul prec emax a (S754_finite false m e)) = true.
Proof.
  intros Ha.
  destruct a as [[|]|[|]| |[|] ma ea]; try discriminate Ha; try reflexivity.
  unfold SFmul. cbn [xorb]. apply binary_round_aux_not_negative.
Qed.

End Signs.

Lemma segment_not_negative (E : Element) (x0 x1 y0 y1 : spec_float) :
  not_negative (segment E x0 x1 y0 y1) = true.
Proof.
  unfold segment, sqrt, Float.sqrt.
  apply SFsqrt_not_negative.
  unfold d_add, Float.add. apply SFadd_not_negative;
    unfold pow_2, d_mul, Float.mul; apply SFmul_self_not_negative.
Qed.

Lemma reduce_not_negative (E : Element) (x y : column_view)
    (k : nat) (i : Z) (acc r : float64) :
  not_negative acc = true ->
  reduce E x y k i acc = Some r ->
  not_negative r = true.
Proof.
  revert i acc. induction k as [|k IH]; intros i acc Hacc Hred.
  { injection Hred as <-. exact Hacc. }
  cbn [reduce] in Hred.
  destruct (element E x (i + 0)) as [x0|]; [|discriminate].
  destruct (element E x (i + 1)) as [x1|]; [|discriminate].
  destruct (element E y (i + 0)) as [y0|]; [|discriminate].
  destruct (element E y (i + 1)) as [y1|]; [|discriminate].
  apply (IH _ _ (SFadd_not_negative _ _ _ _ Hacc
                   (segment_not_negative E x0 x1 y0 y1)) Hred).
Qed.

(** The three cases of a trajectory's distance. *)
Lemma trajectory_distance_cases
    (E : Element) (T : Timestamp) (x y timestamp : column_view)
    (len idx : Z) (dv sv : float64) :
  trajectory_value E T x y timestamp len idx = Some (dv, sv) ->
  exists time_ms,
    elapsed_ms T timestamp idx (end_index len idx) = Some time_ms
    /\ ((len < 2 /\ dv = d_neg2)
        \/ (2 <= len /\ time_ms = 0 /\ dv = d_neg3)
        \/ (2 <= len /\ time_ms <> 0 /\ not_negative dv = true)).
Proof.
  unfold trajectory_value. intros Hv.
  destruct (elapsed_ms T timestamp idx (end_index len idx)) as [time_ms|];
    [|discriminate].
  exists time_ms. split; [reflexivity|].
  destruct (len <? 2) eqn:Hlen.
  { apply Z.ltb_lt in Hlen. injection Hv as <- <-. auto. }
  apply Z.ltb_ge in Hlen.
  destruct (time_ms =? 0) eqn:Hz.
  { apply Z.eqb_eq in Hz. injection Hv as <- <-. auto. }
  apply Z.eqb_neq in Hz.
  destruct (reduce E x y _ idx d_zero) as [dist_km|] eqn:Hred;
    [|discriminate].
  injection Hv as <- <-. right. right. repeat split; auto.
  apply reduce_not_negative in Hred; [|reflexivity].
  change (d_of_int 1000) with (S754_finite false 8796093022208000 (-43)).
  apply SFmul_positive_not_negative. exact Hred.
Qed.

(** X7: the distance column alone tells the three cases apart.  In the
    table of a completed launch, the distance of row [g] is [-2.0] exactly
    when the row has fewer than two points, [-3.0] exactly when it has at
    least two points and zero elapsed milliseconds, and otherwise it is
    NaN or has its sign bit clear (it is never negative). *)
Theorem distance_identifies_case
    (E : Element) (T : Timestamp)
    (x y timestamp length offset : column_view)
    (block_size g len idx : Z) (distance speed : mutable_column)
    (dv : float64) :
  0 < block_size ->
  size length = size offset ->
  reducer E T x y timestamp length offset block_size
  = Some (distance, speed) ->
  0 <= g < size length ->
  descriptor_row length offset g = Some (len, idx) ->
  nth_error distance (Z.to_nat g) = Some (Some dv) ->
  (dv = d_neg2 <-> len < 2)
  /\ (dv = d_neg3 <->
      2 <= len /\ elapsed_ms T timestamp idx (end_index len idx) = Some 0)
  /\ (2 <= len ->
      elapsed_ms T timestamp idx (end_index len idx) <> Some 0 ->
      not_negative dv = true).
Proof.
  intros Hb Hsz Hrun Hg Hrow Hdv.
  destruct (reducer_slots E T x y timestamp length offset block_size
              Hb Hsz distance speed Hrun) as (_ & _ & Hslots).
  destruct (Hslots g Hg) as (dv' & sv & Hv & Hd & _).
  rewrite Hdv in Hd. injection Hd as <-.
  unfold thread_value in Hv. rewrite Hrow in Hv. cbn [fst snd] in Hv.
  destruct (trajectory_distance_cases E T x y timestamp len idx dv sv Hv)
    as (time_ms & Hel & Hcases).
  rewrite Hel.
  assert (Hn2 : not_negative d_neg2 = false) by reflexivity.
  assert (Hn3 : not_negative d_neg3 = false) by reflexivity.
  assert (H23 : d_neg2 <> d_neg3) by discriminate.
  destruct Hcases as [(Hlen & ->) | [(Hlen & -> & ->) | (Hlen & Hnz & Hnn)]].
  - split; [split; [intros _; exact Hlen | reflexivity]|].
    split; [split; [intros Heq; congruence | intros [Hge _]; lia]|].
    intros Hge _. lia.
  - split; [split; [intros Heq; congruence | intros Hlt; lia]|].
    split; [split; [intros _; split; [exact Hlen | reflexivity]
                   | reflexivity]|].
    intros _ Hne. elim Hne. reflexivity.
  - split; [split; [intros ->; congruence | intros Hlt; lia]|].
    split; [split; [intros ->; congruence
                   | intros [_ Heq]; injection Heq as ->; lia]|].
    intros _ _. exact Hnn.
Qed.

(** The third trajectory of the example batch: 9000 m. *)
Lemma distance_identifies_case_witness :
  (d_of_int 9000 = d_neg2 <-> 3 < 2)
  /\ (d_of_int 9000 = d_neg3 <->
      2 <= 3
      /\ elapsed_ms timestamp_ms Examples.batch_timestamp 3 (end_index 3 3)
         = Some 0)
  /\ (2 <= 3 ->
      elapsed_ms timestamp_ms Examples.batch_timestamp 3 (end_index 3 3)
      <> Some 0 ->
      not_negative (d_of_int 9000) = true).
Proof.
  apply (distance_identifies_case double timestamp_ms
           Examples.batch_x Examples.batch_y Examples.batch_timestamp
           Examples.batch_length Examples.batch_offset 256 2 3 3
           [Some d_neg2; Some d_neg3; Some (d_of_int 9000)]
           [Some d_neg2; Some d_neg3; Some (d_of_int 4500)]
           (d_of_int 9000)).
  - lia.
  - reflexivity.
  - vm_compute. reflexivity.
  - cbn. lia.
  - vm_compute. reflexivity.
  - reflexivity.
Defined.

(* ===================================================================== *)
(** * A trajectory that does not move *)
(* ===================================================================== *)

Lemma sub_self_zero (f : Float.format) (v : spec_float) :
  is_finite v = true -> Float.sub f v v = S754_zero false.
Proof.
  intros Hv. unfold Float.sub.
  destruct v as [[|]|s| |s m e]; try discriminate Hv; try reflexivity.
  unfold SFsub. rewrite Z.sub_diag. reflexivity.
Qed.

Lemma segment_same_point (E : Element) (px py : spec_float) :
  is_finite px = true -> is_finite py = true ->
  segment E px px py py = d_zero.
Proof.
  intros Hx Hy. unfold segment.
  rewrite !sub_self_zero by assumption.
  destruct E; reflexivity.
Qed.

Lemma fold_zero_segments (A : Type) (f : A -> float64) (l : list A) :
  (forall a, In a l -> f a = d_zero) ->
  fold_left (fun acc a => d_add acc (f a)) l d_zero = d_zero.
Proof.
  induction l as [|a l IH]; intros Hz; [reflexivity|].
  cbn [fold_left]. rewrite (Hz a) by (left; reflexivity).
  change (d_add d_zero d_zero) with d_zero.
  apply IH. intros b Hb. apply Hz. right. exact Hb.
Qed.

(** X8: a trajectory of at least two points that all have the same finite
    coordinates, with non-zero elapsed time, has distance exactly [+0.0];
    its speed is [+0.0] divided by the elapsed milliseconds. *)
Theorem stationary_trajectory
    (E : Element) (T : Timestamp)
    (x y timestamp length offset : column_view)
    (block_size g len idx time_ms : Z) (px py : spec_float) :
  0 < block_size ->
  size length = size offset ->
  launch_in_bounds E T x y timestamp length offset = true ->
  0 <= g < size length ->
  descriptor_row length offset g = Some (len, idx) ->
  2 <= len ->
  elapsed_ms T timestamp idx (idx + len - 1) = Some time_ms ->
  time_ms <> 0 ->
  is_finite px = true -> is_finite py = true ->
  (forall i, idx <= i <= idx + len - 1 ->
     point E x i = px /\ point E y i = py) ->
  exists distance speed,
    reducer E T x y timestamp length offset block_size
    = Some (distance, speed)
    /\ nth_error distance (Z.to_nat g) = Some (Some d_zero)
    /\ nth_error speed (Z.to_nat g)
       = Some (Some (d_div d_zero (d_of_int time_ms))).
Proof.
  intros Hb Hsz Hin Hg Hrow Hlen Hel Hnz Hfx Hfy Hsame.
  destruct (reducer_row E T x y timestamp length offset block_size
              Hb Hsz Hin g len idx Hg Hrow)
    as (distance & speed & tm & Hrun & Hel' & Hval & Hd & Hs).
  rewrite Hel in Hel'. injection Hel' as <-.
  exists distance, speed. split; [exact Hrun|].
  replace (len <? 2) with false in Hval by (symmetry; apply Z.ltb_ge; lia).
  replace (time_ms =? 0) with false in Hval
    by (symmetry; apply Z.eqb_neq; assumption).
  assert (Hsum : path_length E x y idx (Z.to_nat (len - 1)) = d_zero).
  { unfold path_length. apply fold_zero_segments.
    intros i Hi. unfold indices in Hi. apply in_map_iff in Hi.
    destruct Hi as (j & <- & Hj). apply in_seq in Hj.
    destruct (Hsame (idx + Z.of_nat j)) as [-> ->]; [lia|].
    destruct (Hsame (idx + Z.of_nat j + 1)) as [-> ->]; [lia|].
    apply segment_same_point; assumption. }
  cbv zeta in Hval. rewrite Hsum in Hval.
  change (d_mul d_zero (d_of_int 1000)) with d_zero in Hval.
  change (d_mul d_zero (d_of_int 1000000)) with d_zero in Hval.
  rewrite Hval in Hd, Hs. cbn [option_map fst snd] in Hd, Hs. auto.
Qed.

(** Three single-precision samples at (3, 4) over two seconds. *)
Lemma stationary_trajectory_witness :
  exists distance speed,
    reducer float timestamp_s MoreExamples.parked_x MoreExamples.parked_y
            MoreExamples.parked_timestamp MoreExamples.parked_length
            MoreExamples.parked_offset 256
    = Some (distance, speed)
    /\ nth_error distance (Z.to_nat 0) = Some (Some d_zero)
    /\ nth_error speed (Z.to_nat 0)
       = Some (Some (d_div d_zero (d_of_int 2000))).
Proof.
  apply (stationary_trajectory float timestamp_s
           MoreExamples.parked_x MoreExamples.parked_y
           MoreExamples.parked_timestamp MoreExamples.parked_length
           MoreExamples.parked_offset 256 0 3 0 2000
           (Float.of_Z Float.binary32 3) (Float.of_Z Float.binary32 4)).
  - lia.
  - reflexivity.
  - vm_compute. reflexivity.
  - cbn. lia.
  - vm_compute. reflexivity.
  - lia.
  - vm_compute. reflexivity.
  - lia.
  - reflexivity.
  - reflexivity.
  - intros i Hi.
    assert (Hcases : i = 0 \/ i = 1 \/ i = 2) by lia.
    destruct Hcases as [-> | [-> | ->]]; split; vm_compute; reflexivity.
Defined.

(* ===================================================================== *)
(** * The patched [CUDA_CUB_RET_IF_FAIL] *)
(* ===================================================================== *)

(** X12: when the patched macro makes the enclosing function return, the
    returned code is not [cudaSuccess] and is the very code its argument
    produced; the argument was evaluated once, the state being the one it
    left. *)
Theorem patched_macro_returns_the_failure
    (State : Type) (e : thrust.expression State) (s s' : State)
    (err : thrust.cudaError_t) :
  thrust.CUDA_CUB_RET_IF_FAIL State e s = (Some err, s') ->
  err <> thrust.cudaSuccess /\ e s = (err, s').
Proof.
  unfold thrust.CUDA_CUB_RET_IF_FAIL, thrust.Debug.
  destruct (e s) as [error s1].
  destruct (error =? thrust.cudaSuccess) eqn:Heq; cbn [negb];
    intros Hret; [discriminate|].
  injection Hret as <- <-. apply Z.eqb_neq in Heq. auto.
Qed.

(** A pending error 2 read with [get_last_error]. *)
Lemma patched_macro_returns_the_failure_witness :
  2 <> thrust.cudaSuccess /\ thrust.get_last_error 2 = (2, 0).
Proof.
  apply (patched_macro_returns_the_failure Z thrust.get_last_error 2 0 2).
  reflexivity.
Defined.

(** X13: the macro before the patch and the patched macro behave alike
    exactly when the argument succeeded or its second evaluation repeats
    the first (same code, state left alone).  Otherwise the original
    returns the code of a second evaluation: with an argument that clears
    the error on reading, it returns [cudaSuccess] for a failure. *)
Theorem original_macro_agrees_iff_repeatable
    (State : Type) (e : thrust.expression State) (s s1 : State)
    (err : thrust.cudaError_t) :
  e s = (err, s1) ->
  (thrust.CUDA_CUB_RET_IF_FAIL_original State e s
   = thrust.CUDA_CUB_RET_IF_FAIL State e s
   <-> err = thrust.cudaSuccess \/ e s1 = (err, s1))
  /\ (err <> thrust.cudaSuccess ->
      forall s2, e s1 = (thrust.cudaSuccess, s2) ->
      thrust.CUDA_CUB_RET_IF_FAIL_original State e s
      = (Some thrust.cudaSuccess, s2)).
Proof.
  intros He.
  unfold thrust.CUDA_CUB_RET_IF_FAIL_original, thrust.CUDA_CUB_RET_IF_FAIL,
    thrust.Debug.
  rewrite He.
  destruct (err =? thrust.cudaSuccess) eqn:Heq; cbn [negb].
  - apply Z.eqb_eq in Heq. split.
    + split; [intros _; left; exact Heq | reflexivity].
    + intros Hne. contradiction.
  - apply Z.eqb_neq in Heq. split.
    + destruct (e s1) as [r s2]. split.
      * intros Hsame. injection Hsame as -> ->. right. reflexivity.
      * intros [Hz | Hrep]; [contradiction|].
        injection Hrep as -> ->. reflexivity.
    + intros _ s2 He2. rewrite He2. reflexivity.
Qed.

(** A pending error 2 read with [get_last_error], which clears it. *)
Lemma original_macro_agrees_iff_repeatable_witness :
  (thrust.CUDA_CUB_RET_IF_FAIL_original Z thrust.get_last_error 2
   = thrust.CUDA_CUB_RET_IF_FAIL Z thrust.get_last_error 2
   <-> 2 = thrust.cudaSuccess \/ thrust.get_last_error 0 = (2, 0))
  /\ (2 <> thrust.cudaSuccess ->
      forall s2, thrust.get_last_error 0 = (thrust.cudaSuccess, s2) ->
      thrust.CUDA_CUB_RET_IF_FAIL_original Z thrust.get_last_error 2
      = (Some thrust.cudaSuccess, s2)).
Proof.
  apply (original_macro_agrees_iff_repeatable Z thrust.get_last_error 2 0 2).
  reflexivity.
Defined.
